(** * NorthRelay Python SDK: the resilient-request core

    A shallow embedding of [northrelay/utils/http.py] (the transport),
    [northrelay/utils/retry.py] (the retry wrapper), [northrelay/exceptions.py]
    and the constructor of [northrelay/client.py], with the properties the
    specification states about them.

    Conventions of the embedding.
    - Python [str] and [bytes] are [string]; the only case mapping and
      searches used by the code involve ASCII patterns.
    - Python [int] is [Z]. Delays are Python floats: an abstract type with
      the operations tenacity applies to it ([<], [*] and [**], which can
      raise [OverflowError]); every general statement holds for whatever
      these operations compute. Concrete runs are evaluated with exact
      rational arithmetic, which is what binary64 computes as long as every
      intermediate value is representable (powers of two, here).
    - A call that may raise returns a [result]: [Return v] or [Raise e].
    - The mutable attribute [HttpClient._rate_limit_info] is threaded
      explicitly: an operation on the client returns the updated client.
    - The network is an input: [request] takes the answer of the underlying
      [httpx.AsyncClient.request], a response or a request error.
    - [int()] and [datetime.fromtimestamp()] are parameters of the transport,
      so that every statement holds whatever these conversions accept.
    - httpx and tenacity are not part of the repository; they are modelled
      by their documented behaviour, as far as the code depends on it. *)

From Stdlib Require Import Bool Ascii String List ZArith QArith Lia.
From Stdlib Require Import DecimalString Qpower Qabs.
Import ListNotations.

Set Implicit Arguments.
Set Warnings "-register-all,-notation-for-abbreviation".

Local Open Scope string_scope.
Local Open Scope Z_scope.

(* ------------------------------------------------------------------ *)
(** ** The fragment of the Python runtime the code relies on *)

Module Py.

(** Values produced by [response.json()], and more generally the dynamically
    typed values the error path handles. *)
Inductive value : Type :=
| VNone
| VBool (b : bool)
| VInt (z : Z)
| VFloat (q : Q)
| VStr (s : string)
| VList (l : list value)
| VDict (d : list (string * value)).

(** Truth value testing, as performed by [x or y], [if x] and [not x]. *)
Definition truthy (v : value) : bool :=
  match v with
  | VNone => false
  | VBool b => b
  | VInt z => negb (z =? 0)
  | VFloat q => negb (Qeq_bool q 0)
  | VStr s => negb (String.eqb s "")
  | VList l => match l with [] => false | _ => true end
  | VDict d => match d with [] => false | _ => true end
  end.

Definition str_truthy (s : string) : bool := negb (String.eqb s "").


(** [d.get(key, default)] on a dict held as its list of items. *)
Fixpoint dict_get (d : list (string * value)) (key : string) (default : value)
  : value :=
  match d with
  | [] => default
  | (k, v) :: d' => if String.eqb k key then v else dict_get d' key default
  end.

Definition ascii_lower (c : ascii) : ascii :=
  let n := nat_of_ascii c in
  if (Nat.leb 65 n && Nat.leb n 90)%bool then ascii_of_nat (n + 32) else c.

(** [s.lower()]. *)
Fixpoint lower (s : string) : string :=
  match s with
  | EmptyString => EmptyString
  | String c s' => String (ascii_lower c) (lower s')
  end.

(** [s.startswith(p)]. *)
Definition startswith (s p : string) : bool := String.prefix p s.

(** [needle in hay] for two strings. *)
Fixpoint py_in (needle hay : string) : bool :=
  if String.prefix needle hay then true
  else match hay with
       | EmptyString => false
       | String _ hay' => py_in needle hay'
       end.

(** [s.rstrip(c)] for a one-character set: [strip_end] keeps a character
    when something other than [c] follows it. *)
Fixpoint rstrip (c : ascii) (s : string) : string :=
  match s with
  | EmptyString => EmptyString
  | String a s' =>
      match rstrip c s' with
      | EmptyString => if Ascii.eqb a c then EmptyString else String a EmptyString
      | t => String a t
      end
  end.

(** A string in double quotes. *)
Definition dquote : string := String (ascii_of_nat 34) EmptyString.

Definition quoted (s : string) : string := dquote ++ s ++ dquote.

(** [str(n)] for an integer. *)
Definition str_of_int (z : Z) : string := NilZero.string_of_int (Z.to_int z).

(** Built-in exception classes that escape from the modelled code. *)
Inductive builtin : Type :=
| AttributeError
| ValueError
| UnboundLocalError
| OverflowError
| OSError
| JSONDecodeError.

(** What the specification means by "starts with" and "contains". *)
Definition has_prefix (p s : string) : Prop := exists rest, s = p ++ rest.

Definition has_substring (sub s : string) : Prop :=
  exists pre post, s = pre ++ sub ++ post.

Definition contains_ignoring_case (sub s : string) : Prop :=
  has_substring (lower sub) (lower s).

End Py.

(* ------------------------------------------------------------------ *)
(** ** Python floats, as far as the backoff computation uses them *)

Module Floats.

(** The delay fields of a retry policy are floats, as annotated in
    retry.py. The type is left abstract, with the operations tenacity
    applies: the float of a literal, [a < b], [a ** n] for an [int] exponent
    ([None] when it raises [OverflowError]) and [a * b] (which rounds, and
    gives an infinity or a NaN rather than raising). *)
Class FloatOps (float : Type) : Type := {
  float_of : Q -> float;
  float_lt : float -> float -> bool;
  float_pow : float -> Z -> option float;
  float_mul : float -> float -> float
}.

Section Builtins.
Context {float : Type} `{FloatOps float}.

(** The builtin [max(a, b)]: [b] when [b > a], else [a]. *)
Definition py_max (a b : float) : float := if float_lt a b then b else a.

(** The builtin [min(a, b)]: [b] when [b < a], else [a]. *)
Definition py_min (a b : float) : float := if float_lt b a then b else a.

End Builtins.

(** Exact arithmetic on rationals: no rounding, no overflow. It agrees with
    binary64 on every computation whose intermediate values are
    representable. *)
#[export] Instance exact : FloatOps Q := {|
  float_of := fun q => q;
  float_lt := fun a b => match Qcompare a b with Lt => true | _ => false end;
  float_pow := fun a n => Some (Qpower a n);
  float_mul := Qmult
|}.

(** Exact arithmetic inside the range of binary64: a power whose magnitude
    reaches [2 ** 1024] raises [OverflowError]. Rounding is left out, so it
    agrees with binary64 on every computation whose intermediate values are
    representable. *)
Definition ranged : FloatOps Q := {|
  float_of := fun q => q;
  float_lt := fun a b => match Qcompare a b with Lt => true | _ => false end;
  float_pow := fun a n =>
    let p := Qpower a n in
    if Qle_bool (inject_Z (2 ^ 1024)) (Qabs p) then None else Some p;
  float_mul := Qmult
|}.

End Floats.

(* ------------------------------------------------------------------ *)
(** ** What the code sees of httpx *)

Module Httpx.
Import Py.

(** An [httpx.Response], through the accessors the code uses:
    [status_code], [headers.get(name)], [content], [text] and [json()]
    ([None] when [json()] raises). *)
Record Response : Type := {
  status_code : Z;
  headers : string -> option string;
  content : string;
  text : string;
  json : option value
}.

(** An [httpx.RequestError]: the request failed and no response exists. *)
Record RequestError : Type := { error_text : string }.

(** The answer of [AsyncClient.request]. *)
Inductive exchange : Type :=
| Received (response : Response)
| Failed (error : RequestError).

(** [response.is_success]. *)
Definition is_success (r : Response) : bool :=
  (200 <=? status_code r) && (status_code r <=? 299).

(** Headers given as a list of pairs, for concrete responses. *)
Fixpoint headers_of (l : list (string * string)) (name : string)
  : option string :=
  match l with
  | [] => None
  | (k, v) :: l' => if String.eqb k name then Some v else headers_of l' name
  end.

End Httpx.

(* ------------------------------------------------------------------ *)
(** ** northrelay/exceptions.py *)

Module Exceptions.
Import Py Httpx.

(** The classes of [exceptions.py], each with the attributes its
    [__init__] stores, followed by the foreign exceptions that can leave
    the transport. *)
Inductive exn : Type :=
| AuthenticationError (message : value)
| ScopeError (message : value)
| ValidationError (message : value) (errors : value)
| QuotaExceededError (message : value) (quota_limit quota_used : option Z)
| RateLimitError (message : value) (retry_after : option Z)
| NotFoundError (message : value)
| ServerError (message : value) (status : Z)
| NetworkError (message : value) (cause : option RequestError)
| HTTPStatusError (response : Response)
| RetryError (last_attempt : exn)
| Builtin (b : builtin).

(** [ValidationError.__init__]: [self.errors = errors or []]. *)
Definition ValidationError_init (message errors : value) : exn :=
  ValidationError message (if truthy errors then errors else VList []).

(** [QuotaExceededError(message)]: both quota fields default to [None]. *)
Definition QuotaExceededError_init (message : value) : exn :=
  QuotaExceededError message None None.

(** The [status_code] attribute set by each [__init__]. *)
Definition status_code_of (e : exn) : option Z :=
  match e with
  | AuthenticationError _ => Some 401
  | ScopeError _ => Some 403
  | ValidationError _ _ => Some 400
  | QuotaExceededError _ _ _ => Some 429
  | RateLimitError _ _ => Some 429
  | NotFoundError _ => Some 404
  | ServerError _ status => Some status
  | NetworkError _ _ => None
  | HTTPStatusError r => Some (status_code r)
  | RetryError _ => None
  | Builtin _ => None
  end.


Inductive result (A : Type) : Type :=
| Return (a : A)
| Raise (e : exn).
Arguments Raise {A} e.

End Exceptions.

(* ------------------------------------------------------------------ *)
(** ** northrelay/utils/http.py *)

Module Http.
Import Py Httpx Exceptions.

(** A [datetime] is represented by the timestamp it was built from. *)
Record datetime : Type := { timestamp : Z }.

(** [northrelay.types.RateLimitInfo]. *)
Record RateLimitInfo : Type := {
  limit : option Z;
  remaining : option Z;
  reset : option datetime
}.

Record HttpClient : Type := {
  base_url : string;
  api_key : string;
  timeout : Q;
  _rate_limit_info : option RateLimitInfo
}.

(** [HttpClient.__init__]. *)
Definition HttpClient_init (base_url api_key : string) (timeout : Q)
  : HttpClient :=
  {| base_url := rstrip "/" base_url;
     api_key := api_key;
     timeout := timeout;
     _rate_limit_info := None |}.

Definition get_rate_limit_info (self : HttpClient) : option RateLimitInfo :=
  _rate_limit_info self.

Definition set_rate_limit_info (self : HttpClient)
    (info : option RateLimitInfo) : HttpClient :=
  {| base_url := base_url self;
     api_key := api_key self;
     timeout := timeout self;
     _rate_limit_info := info |}.

Section Transport.

(** The two conversions the transport delegates to the runtime:
    [int(s)] on a header value ([None] when it raises [ValueError]) and
    [datetime.fromtimestamp(n)] (the exception when it raises). *)
Variable py_int : string -> option Z.
Variable fromtimestamp : Z -> builtin + datetime.

(** [int(h) if h else None] for a header value [h] that may be [None]. *)
Definition int_if_present (h : option string) : result (option Z) :=
  match h with
  | None => Return None
  | Some s =>
      if str_truthy s then
        match py_int s with
        | Some n => Return (Some n)
        | None => Raise (Builtin ValueError)
        end
      else Return None
  end.

(** [datetime.fromtimestamp(int(h)) if h else None]. *)
Definition datetime_if_present (h : option string)
  : result (option datetime) :=
  match int_if_present h with
  | Raise e => Raise e
  | Return None => Return None
  | Return (Some n) =>
      match fromtimestamp n with
      | inl b => Raise (Builtin b)
      | inr d => Return (Some d)
      end
  end.

(** The truth value of a header lookup: present and not empty. *)
Definition header_truthy (h : option string) : bool :=
  match h with
  | None => false
  | Some s => str_truthy s
  end.

Definition _update_rate_limit (self : HttpClient) (response : Response)
  : result unit * HttpClient :=
  let limit := headers response "x-ratelimit-limit" in
  let remaining := headers response "x-ratelimit-remaining" in
  let reset := headers response "x-ratelimit-reset" in
  if header_truthy limit || header_truthy remaining || header_truthy reset
  then
    match int_if_present limit with
    | Raise e => (Raise e, self)
    | Return l =>
        match int_if_present remaining with
        | Raise e => (Raise e, self)
        | Return rm =>
            match datetime_if_present reset with
            | Raise e => (Raise e, self)
            | Return rs =>
                (Return tt,
                 set_rate_limit_info self
                   (Some {| limit := l; remaining := rm; reset := rs |}))
            end
        end
    end
  else (Return tt, self).

(** The [try] block of [_handle_error_response]: the binding of
    [error_data] ([None] when the name was never assigned) and
    [error_message]. *)
Definition fallback_message (response : Response) : value :=
  VStr (if str_truthy (text response) then text response
        else "HTTP " ++ str_of_int (status_code response) ++ " error").

Definition error_body (response : Response) : option value * value :=
  match json response with
  | None => (None, fallback_message response)
  | Some (VDict d) =>
      (Some (VDict d),
       dict_get d "message" (dict_get d "error" (VStr (text response))))
  | Some data => (Some data, fallback_message response)
  end.

(** [response.raise_for_status()]. *)
Definition raise_for_status (response : Response) : result unit :=
  if is_success response then Return tt
  else Raise (HTTPStatusError response).

Definition _handle_error_response (response : Response) : result unit :=
  let status_code := status_code response in
  let '(error_data, error_message) := error_body response in
  if status_code =? 401 then Raise (AuthenticationError error_message)
  else if status_code =? 403 then Raise (ScopeError error_message)
  else if status_code =? 400 then
    match error_data with
    | None => Raise (Builtin UnboundLocalError)
    | Some (VDict d) =>
        Raise (ValidationError_init error_message (dict_get d "errors" VNone))
    | Some _ => Raise (ValidationError_init error_message VNone)
    end
  else if status_code =? 404 then Raise (NotFoundError error_message)
  else if status_code =? 429 then
    let retry_after := headers response "retry-after" in
    match error_message with
    | VStr m =>
        if py_in "quota" (lower m)
        then Raise (QuotaExceededError_init error_message)
        else
          match int_if_present retry_after with
          | Raise e => Raise e
          | Return n => Raise (RateLimitError error_message n)
          end
    | _ => Raise (Builtin AttributeError)
    end
  else if (500 <=? status_code) && (status_code <? 600)
  then Raise (ServerError error_message status_code)
  else raise_for_status response.

(** [HttpClient.request]: the answer of the underlying
    [AsyncClient.request] is the argument [answer]. *)
Definition request (self : HttpClient) (method path : string)
    (answer : exchange) : result Response * HttpClient :=
  match answer with
  | Failed e =>
      (Raise (NetworkError (VStr ("Network error: " ++ error_text e))
                           (Some e)),
       self)
  | Received response =>
      match _update_rate_limit self response with
      | (Raise e, self') => (Raise e, self')
      | (Return _, self') =>
          if negb (is_success response) then
            match _handle_error_response response with
            | Raise e => (Raise e, self')
            | Return _ => (Return response, self')
            end
          else (Return response, self')
      end
  end.

(** [response.json()] as a call. *)
Definition response_json (response : Response) : result value :=
  match json response with
  | Some v => Return v
  | None => Raise (Builtin JSONDecodeError)
  end.

Definition get (self : HttpClient) (path : string) (answer : exchange)
  : result value * HttpClient :=
  match request self "GET" path answer with
  | (Raise e, self') => (Raise e, self')
  | (Return response, self') => (response_json response, self')
  end.

Definition delete (self : HttpClient) (path : string) (answer : exchange)
  : result value * HttpClient :=
  match request self "DELETE" path answer with
  | (Raise e, self') => (Raise e, self')
  | (Return response, self') =>
      if str_truthy (content response)
      then (response_json response, self')
      else (Return (VDict []), self')
  end.

(** A client serving a sequence of requests, one answer each; a request
    that raises leaves the client usable for the next one. *)
Fixpoint serve (self : HttpClient) (answers : list exchange) : HttpClient :=
  match answers with
  | [] => self
  | a :: rest => serve (snd (request self "GET" "/" a)) rest
  end.

(** *** The snapshot as the specification describes it *)

(** A response "has a rate-limit header" when one of the three is present. *)
Definition has_rate_limit_header (response : Response) : bool :=
  match headers response "x-ratelimit-limit",
        headers response "x-ratelimit-remaining",
        headers response "x-ratelimit-reset" with
  | None, None, None => false
  | _, _, _ => true
  end.

(** One of the three headers is present with a value that is not empty. *)
Definition has_rate_limit_value (response : Response) : bool :=
  header_truthy (headers response "x-ratelimit-limit")
  || header_truthy (headers response "x-ratelimit-remaining")
  || header_truthy (headers response "x-ratelimit-reset").

(** The snapshot built from the headers of one response and nothing else;
    there is none when a conversion raises. *)
Definition snapshot_of (response : Response) : option RateLimitInfo :=
  match int_if_present (headers response "x-ratelimit-limit"),
        int_if_present (headers response "x-ratelimit-remaining"),
        datetime_if_present (headers response "x-ratelimit-reset") with
  | Return l, Return rm, Return rs =>
      Some {| limit := l; remaining := rm; reset := rs |}
  | _, _, _ => None
  end.

(** The responses that replace the snapshot. *)
Definition carries_snapshot (response : Response) : bool :=
  has_rate_limit_value response
  && match snapshot_of response with Some _ => true | None => false end.

(** The client after a sequence of responses. *)
Definition process (self : HttpClient) (responses : list Response)
  : HttpClient :=
  serve self (map Received responses).

End Transport.

End Http.

(* ------------------------------------------------------------------ *)
(** ** The tenacity combinators used by retry.py

    [retry(stop=..., wait=..., retry=..., reraise=...)] wraps a coroutine
    function [fn] (the "async function" that [with_retry] documents as its
    argument) in a loop: await [fn()]; a returned value is returned; an
    exception the [retry] predicate rejects is re-raised; otherwise, when
    [stop] holds for the number of the attempt just made, the last exception
    is re-raised ([reraise=True]) or wrapped in [RetryError]; otherwise the
    loop sleeps for [wait] seconds and calls [fn] again. The state [W] stands
    for everything [fn] may read and change between two calls. *)

Module Tenacity.
Import Exceptions Floats.

Inductive event (float : Type) : Type :=
| Call (attempt_number : Z)
| Sleep (seconds : float).
Arguments Call {float} attempt_number.
Arguments Sleep {float} seconds.

(** [stop_after_attempt(n)]. *)
Definition stop_after_attempt (max_attempt_number attempt_number : Z) : bool :=
  attempt_number >=? max_attempt_number.

(** [wait_exponential(multiplier, min, max, exp_base)], called after the
    attempt numbered [attempt_number]:
    [max(max(0, min), min(multiplier * exp_base ** (attempt_number - 1), max))],
    and [max] itself when the power raises [OverflowError]. *)
Definition wait_exponential {float : Type} `{FloatOps float}
    (multiplier min max exp_base : float) (attempt_number : Z) : float :=
  match float_pow exp_base (attempt_number - 1) with
  | None => max
  | Some exp =>
      let result := float_mul multiplier exp in
      py_max (py_max (float_of 0) min) (py_min result max)
  end.

(** [retry_if_exception_type(types)] applied to a raised exception; it
    never asks to retry a returned value. *)
Definition retry_if_exception_type (types : exn -> bool) (e : exn) : bool :=
  types e.

Section Retrying.
Variables W T float : Type.
Variable stop : Z -> bool.
Variable wait : Z -> float.
Variable retry : exn -> bool.
Variable reraise : bool.
Variable fn : W -> result T * W.

(** A finished run: what the caller gets, the number of the last
    attempt, the calls and sleeps in order, and the final state. *)
Record run : Type := {
  outcome : result T;
  attempts : Z;
  trace : list (event float);
  final : W
}.

Definition finish (out : result T) (attempt_number : Z) (w : W) : run :=
  {| outcome := out; attempts := attempt_number;
     trace := [Call attempt_number]; final := w |}.

Definition after (evs : list (event float)) (r : run) : run :=
  {| outcome := outcome r; attempts := attempts r;
     trace := evs ++ trace r; final := final r |}.

Fixpoint iterate (fuel : nat) (attempt_number : Z) (w : W) : option run :=
  match fuel with
  | O => None
  | S fuel' =>
      let '(out, w') := fn w in
      match out with
      | Return v => Some (finish (Return v) attempt_number w')
      | Raise e =>
          if negb (retry e) then Some (finish (Raise e) attempt_number w')
          else if stop attempt_number then
            Some (finish (Raise (if reraise then e else RetryError e))
                         attempt_number w')
          else
            option_map
              (after [Call attempt_number; Sleep (wait attempt_number)])
              (iterate fuel' (attempt_number + 1) w')
      end
  end.

(** The calls and sleeps of a run that starts at attempt [n] and makes
    [more] further attempts. *)
Fixpoint schedule (n : Z) (more : nat) : list (event float) :=
  match more with
  | O => [Call n]
  | S more' => Call n :: Sleep (wait n) :: schedule (n + 1) more'
  end.

(** The state before the call that follows [k] failed calls. *)
Definition state_after (k : nat) (w : W) : W :=
  Nat.iter k (fun w => snd (fn w)) w.

End Retrying.
Arguments finish {W T float} out attempt_number w.

(** The sleep that immediately precedes attempt [k] in a trace. *)
Fixpoint delay_before (float : Type) (tr : list (event float)) (k : Z)
  : option float :=
  match tr with
  | [] => None
  | ev :: rest =>
      match ev, rest with
      | Sleep d, Call m :: _ => if m =? k then Some d else delay_before rest k
      | _, _ => delay_before rest k
      end
  end.

(** All sleeps of a trace, in order. *)
Fixpoint sleeps (float : Type) (tr : list (event float)) : list float :=
  match tr with
  | [] => []
  | Sleep d :: rest => d :: sleeps rest
  | Call _ :: rest => sleeps rest
  end.

(** Number of calls in a trace. *)
Fixpoint calls (float : Type) (tr : list (event float)) : nat :=
  match tr with
  | [] => O
  | Call _ :: rest => S (calls rest)
  | Sleep _ :: rest => calls rest
  end.

End Tenacity.

(* ------------------------------------------------------------------ *)
(** ** northrelay/utils/retry.py *)

Module Retry.
Import Exceptions Floats Tenacity.

Definition is_retryable_error (exception : exn) : bool :=
  match exception with
  | NetworkError _ _ => true
  | ServerError _ _ => true
  | RateLimitError _ retry_after =>
      match retry_after with Some _ => true | None => false end
  | _ => false
  end.

Record RetryConfig (float : Type) : Type := {
  max_attempts : Z;
  initial_delay : float;
  max_delay : float;
  exponential_base : float
}.

(** The tuple [(NetworkError, ServerError, RateLimitError)] as an
    [isinstance] test. *)
Definition retried_types (e : exn) : bool :=
  match e with
  | NetworkError _ _ => true
  | ServerError _ _ => true
  | RateLimitError _ _ => true
  | _ => false
  end.

(** What [with_retry] is handed as [func]. The decorator built by
    tenacity's [retry(...)] looks at the callable it wraps: a coroutine
    function (an [async def]) gets the awaiting loop, which awaits each call
    inside the loop; any other callable gets the synchronous loop, which only
    calls it. The call sites pass either an [async def] or a [lambda] whose
    body is one call of an async method: calling such a lambda builds the
    coroutine and runs nothing, so the synchronous loop sees a returned value
    and hands the coroutine back, and [with_retry] awaits it once, outside
    the loop. In both cases [body] is what awaiting one call runs. *)
Inductive callable (W T : Type) : Type :=
| AsyncDef (body : W -> result T * W)
| Lambda (body : W -> result T * W).

Definition body_of (W T : Type) (func : callable W T) : W -> result T * W :=
  match func with
  | AsyncDef body => body
  | Lambda body => body
  end.

Section WithRetry.
Context {float : Type} `{FloatOps float}.
Variables W T : Type.

Definition DEFAULT_RETRY_CONFIG : RetryConfig float :=
  {| max_attempts := 3; initial_delay := float_of 1; max_delay := float_of 10;
     exponential_base := float_of 2 |}.

(** The wait strategy built by [create_retry_decorator]; [min] keeps its
    default 0. *)
Definition backoff (c : RetryConfig float) : Z -> float :=
  wait_exponential (initial_delay c) (float_of 0) (max_delay c)
                   (exponential_base c).

(** [await create_retry_decorator(...)(func)()]: the wrapped function
    called and awaited, given the number of loop iterations it may take. *)
Definition create_retry_decorator (c : RetryConfig float)
    (func : callable W T) (fuel : nat) (w : W) : option (run W T float) :=
  match func with
  | AsyncDef body =>
      iterate (stop_after_attempt (max_attempts c))
              (backoff c)
              (retry_if_exception_type retried_types)
              true body fuel 1 w
  | Lambda body =>
      match fuel with
      | O => None
      | S _ => let '(out, w') := body w in Some (finish out 1 w')
      end
  end.

(** [with_retry(func, max_attempts, initial_delay, max_delay,
    exponential_base)]. The loop stops at attempt [max_attempts] at the
    latest, so that many iterations (and one when [max_attempts < 1])
    always suffice: see [with_retry_returns]. *)
Definition with_retry (func : callable W T) (c : RetryConfig float) (w : W)
  : option (run W T float) :=
  create_retry_decorator c func (S (Z.to_nat (max_attempts c - 1))) w.

(** The delay the specification gives for the sleep before attempt [k]:
    [min(initial_delay * exponential_base ** (k - 2), max_delay)], where the
    power can be computed. *)
Definition specified_delay (c : RetryConfig float) (k : Z) : option float :=
  match float_pow (exponential_base c) (k - 2) with
  | None => None
  | Some exp => Some (py_min (float_mul (initial_delay c) exp) (max_delay c))
  end.

End WithRetry.

End Retry.

(* ------------------------------------------------------------------ *)
(** ** northrelay/client.py: the constructor *)

Module Client.
Import Py Floats Http Retry.

(** A resource object: the shared transport and retry configuration. *)
Record Resource (float : Type) : Type := {
  resource_http : HttpClient;
  resource_retry_config : RetryConfig float
}.

Record NorthRelay (float : Type) : Type := {
  _http : HttpClient;
  _retry_config : RetryConfig float;
  resources : list (string * Resource float)
}.

(** How a constructor call ends: with the client, with the [ValueError] of
    the key checks, or with what [httpx.AsyncClient(...)] raises. *)
Inductive construction (float : Type) : Type :=
| Built (client : NorthRelay float)
| ValueError (message : string)
| UnicodeEncodeError
| InvalidURL.
Arguments ValueError {float} message.
Arguments UnicodeEncodeError {float}.
Arguments InvalidURL {float}.

Definition key_required_message : string :=
  "API key is required. Get your API key at " ++
  "https://app.northrelay.ca/settings/api-keys".

Definition key_format_message : string :=
  "Invalid API key format. API keys must start with " ++
  quoted "nr_live_" ++ " or " ++ quoted "nr_test_".

Definition resource_names : list string :=
  [ "emails"; "templates"; "domains"; "webhooks"; "campaigns"; "contacts";
    "brand_theme"; "api_keys"; "events"; "analytics"; "metrics";
    "suppressions"; "suppression_groups"; "subusers"; "identity";
    "ip_pools"; "ips"; "inbound"; "admin"; "keys" ].

(** Every character of a [str] is ASCII; a character outside ASCII is a
    sequence of bytes above 127 here. *)
Fixpoint is_ascii (s : string) : bool :=
  match s with
  | EmptyString => true
  | String c s' => Nat.ltb (nat_of_ascii c) 128 && is_ascii s'
  end.

(** What the specification calls a well-formed credential. *)
Definition recognized_prefix (api_key : string) : Prop :=
  has_prefix "nr_live_" api_key \/ has_prefix "nr_test_" api_key.

Section Construction.
Context {float : Type} `{FloatOps float}.

(** Whether [httpx.URL(base_url)] parses: httpx's own business. *)
Variable url_accepted : string -> bool.

(** [httpx.AsyncClient(base_url=..., timeout=..., headers=...)] as seen
    from [HttpClient.__init__]: the URL is parsed and each header value is
    encoded as ASCII; nothing is sent. [None] when the client is built. *)
Definition AsyncClient_init (base_url : string)
    (headers : list (string * string)) : option (construction float) :=
  if negb (url_accepted base_url) then Some InvalidURL
  else if negb (forallb (fun header => is_ascii (snd header)) headers)
  then Some UnicodeEncodeError
  else None.

(** [HttpClient(base_url, api_key, timeout)]: the attributes are those of
    [HttpClient_init]; building the [httpx.AsyncClient] in between can
    raise. *)
Definition HttpClient_new (base_url api_key : string) (timeout : Q)
  : construction float + HttpClient :=
  let self := HttpClient_init base_url api_key timeout in
  match AsyncClient_init (Http.base_url self)
          [("Authorization", "Bearer " ++ api_key);
           ("Content-Type", "application/json");
           ("User-Agent", "northrelay-python/1.1.0")] with
  | Some raised => inl raised
  | None => inr self
  end.

(** [NorthRelay.__init__]. *)
Definition NorthRelay_init (api_key base_url : string) (timeout : Q)
    (max_retries : Z) (retry_delay max_retry_delay : float)
  : construction float :=
  if negb (str_truthy api_key) then ValueError key_required_message
  else if negb (startswith api_key "nr_live_" || startswith api_key "nr_test_")
  then ValueError key_format_message
  else
    match HttpClient_new base_url api_key timeout with
    | inl raised => raised
    | inr http =>
        let retry_config :=
          {| max_attempts := max_retries;
             initial_delay := retry_delay;
             max_delay := max_retry_delay;
             exponential_base := float_of 2 |} in
        Built {| _http := http;
                 _retry_config := retry_config;
                 resources :=
                   map (fun name =>
                          (name, {| resource_http := http;
                                    resource_retry_config := retry_config |}))
                       resource_names |}
    end.

(** The constructor with every keyword argument at its default. *)
Definition NorthRelay_default (api_key : string) : construction float :=
  NorthRelay_init api_key "https://app.northrelay.ca" 30 3
                  (float_of 1) (float_of 10).

End Construction.

End Client.

(* ------------------------------------------------------------------ *)
(** ** Concrete runtimes, responses and operations *)

Module Scenarios.
Import Py Floats Httpx Exceptions Http Tenacity Retry.

(** [int()] on plain decimal literals with an optional minus sign. *)
Definition decimal_int (s : string) : option Z :=
  option_map Z.of_int (NilZero.int_of_string s).

(** [datetime.fromtimestamp] on a platform where it accepts every value. *)
Definition any_timestamp (n : Z) : builtin + datetime :=
  inr {| timestamp := n |}.

Definition response_of (status : Z) (hdrs : list (string * string))
    (body : string) (parsed : option value) : Response :=
  {| status_code := status; headers := headers_of hdrs;
     content := body; text := body; json := parsed |}.

Definition fresh_client : HttpClient :=
  HttpClient_init "https://app.northrelay.ca" "nr_test_x" 30.

(** 200 with [X-RateLimit-Limit: 100] and [X-RateLimit-Remaining: 99]. *)
Definition ok_with_limits : Response :=
  response_of 200
    [("x-ratelimit-limit", "100"); ("x-ratelimit-remaining", "99")]
    "{}" (Some (VDict [])).

(** 200 with no rate-limit header. *)
Definition ok_without_limits : Response :=
  response_of 200 [("content-type", "application/json")] "{}" (Some (VDict [])).

(** 200 whose only rate-limit header is present with an empty value. *)
Definition ok_with_empty_limit : Response :=
  response_of 200 [("x-ratelimit-limit", "")] "{}" (Some (VDict [])).

(** 200 whose rate-limit header is not a number. *)
Definition ok_with_bad_limit : Response :=
  response_of 200 [("x-ratelimit-limit", "unlimited")] "{}" (Some (VDict [])).

(** 429 whose body nests the error: the [error] field is an object. *)
Definition throttled_nested_error : Response :=
  response_of 429 [("retry-after", "30")]
    ("{" ++ quoted "error" ++ ": {" ++ quoted "code" ++ ": " ++ quoted "rate_limited"
     ++ ", " ++ quoted "message" ++ ": " ++ quoted "Too many requests" ++ "}}")
    (Some (VDict [("error",
                   VDict [("code", VStr "rate_limited");
                          ("message", VStr "Too many requests")])])).

(** 429 whose [Retry-After] is an HTTP date. *)
Definition throttled_http_date : Response :=
  response_of 429 [("retry-after", "Wed, 21 Oct 2015 07:28:00 GMT")]
    ("{" ++ quoted "message" ++ ": " ++ quoted "Too many requests" ++ "}")
    (Some (VDict [("message", VStr "Too many requests")])).

(** 429 with a numeric [Retry-After]. *)
Definition throttled : Response :=
  response_of 429 [("retry-after", "30")]
    ("{" ++ quoted "message" ++ ": " ++ quoted "Too many requests" ++ "}")
    (Some (VDict [("message", VStr "Too many requests")])).

(** 429 reporting an exhausted quota. *)
Definition over_quota : Response :=
  response_of 429 []
    ("{" ++ quoted "message" ++ ": " ++ quoted "Monthly Quota exceeded" ++ "}")
    (Some (VDict [("message", VStr "Monthly Quota exceeded")])).

(** 400 with a body that is not JSON. *)
Definition bad_request_plain : Response :=
  response_of 400 [] "Bad Request" None.



(** 503 with a JSON body. *)
Definition unavailable : Response :=
  response_of 503 [] ("{" ++ quoted "message" ++ ": " ++ quoted "Service unavailable" ++ "}")
    (Some (VDict [("message", VStr "Service unavailable")])).

(** 204 with an empty body. *)
Definition no_content : Response := response_of 204 [] "" None.

(** 200 with a JSON body. *)
Definition deleted_body : Response :=
  response_of 200 [] ("{" ++ quoted "deleted" ++ ": true}") (Some (VDict [("deleted", VBool true)])).

(** An operation that raises the same exception on every call; the state
    counts the calls. *)
Definition always_raises (e : exn) (calls : nat) : result value * nat :=
  (Raise e, S calls).

(** An operation that raises [e] until it has been called [failures]
    times, then returns. *)
Definition fails_then_returns (failures : nat) (e : exn) (v : value)
    (calls : nat) : result value * nat :=
  if Nat.ltb calls failures then (Raise e, S calls) else (Return v, S calls).

Definition rate_limited_no_hint : exn :=
  RateLimitError (VStr "Rate limit exceeded") None.

Definition connection_reset : exn :=
  NetworkError (VStr "Network error: connection reset")
               (Some {| error_text := "connection reset" |}).

Definition five_attempts : RetryConfig Q :=
  {| max_attempts := 5; initial_delay := 1%Q; max_delay := 10%Q;
     exponential_base := 2%Q |}.

Definition negative_delay : RetryConfig Q :=
  {| max_attempts := 2; initial_delay := (-1)%Q; max_delay := 10%Q;
     exponential_base := 2%Q |}.

(** A policy whose third power, [(2.0 ** 600) ** 2], is out of range, with
    a negative cap. *)
Definition overflowing : RetryConfig Q :=
  {| max_attempts := 4; initial_delay := 1%Q; max_delay := (-1)%Q;
     exponential_base := inject_Z (2 ^ 600) |}.

(** A key with a recognized prefix followed by an e with an acute accent
    (two bytes in UTF-8). *)
Definition accented_key : string :=
  "nr_live_" ++ String (ascii_of_nat 195) (String (ascii_of_nat 169) EmptyString).

(** An oracle for [httpx.URL] that vouches for the default base URL only. *)
Definition default_url_only (base_url : string) : bool :=
  String.eqb base_url "https://app.northrelay.ca".

End Scenarios.

(* ------------------------------------------------------------------ *)
(** ** The other verbs of http.py *)

Module Verbs.
Import Py Httpx Exceptions Http.

(** [d[key]] when [key in d]. *)
Fixpoint dict_lookup (d : list (string * value)) (key : string)
  : option value :=
  match d with
  | [] => None
  | (k, v) :: d' => if String.eqb k key then Some v else dict_lookup d' key
  end.

(** The responses among the answers of the underlying client. *)
Fixpoint received (answers : list exchange) : list Response :=
  match answers with
  | [] => []
  | Received r :: rest => r :: received rest
  | Failed _ :: rest => received rest
  end.

(** [s.endswith(c)] for one character. *)
Fixpoint ends_with (c : ascii) (s : string) : bool :=
  match s with
  | EmptyString => false
  | String a EmptyString => Ascii.eqb a c
  | String _ s' => ends_with c s'
  end.

(** [c * n]. *)
Fixpoint replicate (n : nat) (c : ascii) : string :=
  match n with
  | O => EmptyString
  | S n' => String c (replicate n' c)
  end.

(** The SDK's own exception classes, as opposed to what escapes from the
    runtime, httpx or tenacity. *)
Definition is_sdk_error (e : exn) : bool :=
  match e with
  | HTTPStatusError _ | RetryError _ | Builtin _ => false
  | _ => true
  end.

(** The outcomes of a call that end a retry loop: a returned value, or an
    exception the [retry] predicate rejects. *)
Definition stops (T : Type) (retry : exn -> bool) (o : result T) : bool :=
  match o with
  | Return _ => true
  | Raise e => negb (retry e)
  end.

Section Verbs.
Variable py_int : string -> option Z.
Variable fromtimestamp : Z -> builtin + datetime.

(** The common body of [post], [patch] and [put]:
    [response = await self.request(METHOD, path, json=json, ...)] followed by
    [return response.json()]. The JSON sent only reaches the wire. *)
Definition send_json (method : string) (self : HttpClient) (path : string)
    (answer : exchange) : result value * HttpClient :=
  match request py_int fromtimestamp self method path answer with
  | (Raise e, self') => (Raise e, self')
  | (Return response, self') => (response_json response, self')
  end.

Definition post := send_json "POST".
Definition patch := send_json "PATCH".
Definition put := send_json "PUT".

End Verbs.

End Verbs.

(* ------------------------------------------------------------------ *)
(** ** Resource methods: northrelay/resources/emails.py and domains.py

    A resource method wraps one transport call in [with_retry]. The remote
    service is a state machine [respond]: given its state and what is sent
    it produces the answer of the underlying client and its next state. The
    state threaded through [with_retry] is the client together with the
    service. *)

Module Resources.
Import Py Floats Httpx Exceptions Http Verbs Tenacity Retry.

(** What a transport call puts on the wire. *)
Record outgoing : Type := {
  method : string;
  path : string;
  body : option value
}.

Section Resources.
Context {float : Type} `{FloatOps float}.
Variable py_int : string -> option Z.
Variable fromtimestamp : Z -> builtin + datetime.
Variable Service : Type.
Variable respond : Service -> outgoing -> exchange * Service.

(** A pydantic request model, through [model_dump(by_alias=True,
    exclude_none=True)]. *)
Variable SendEmailRequest : Type.
Variable model_dump : SendEmailRequest -> value.

Definition World : Type := (HttpClient * Service)%type.

(** [await self._http.post(path, json=json)]. *)
Definition http_post (path : string) (json : option value) (w : World)
  : result value * World :=
  let '(answer, service') :=
    respond (snd w) {| method := "POST"; path := path; body := json |} in
  let '(out, self') := post py_int fromtimestamp (fst w) path answer in
  (out, (self', service')).

(** [await self._http.delete(path)]. *)
Definition http_delete (path : string) (w : World) : result value * World :=
  let '(answer, service') :=
    respond (snd w) {| method := "DELETE"; path := path; body := None |} in
  let '(out, self') := delete py_int fromtimestamp (fst w) path answer in
  (out, (self', service')).

(** The keyword defaults of [with_retry]. *)
Definition with_retry_defaults : RetryConfig float :=
  {| max_attempts := 3; initial_delay := float_of 1; max_delay := float_of 10;
     exponential_base := float_of 2 |}.

(** [EmailsResource.validate]: [with_retry(_validate)], [_validate] being
    an [async def]. *)
Definition _validate (email : string) : World -> result value * World :=
  http_post "/api/v1/emails/validate" (Some (VDict [("email", VStr email)])).

Definition validate (_retry_config : RetryConfig float) (email : string) (w : World)
  : option (run World value float) :=
  with_retry (AsyncDef (_validate email)) with_retry_defaults w.

(** [EmailsResource.send_batch]: [with_retry(_send_batch,
    max_attempts=self._retry_config.max_attempts,
    initial_delay=self._retry_config.initial_delay)]. *)
Definition _send_batch (emails : list SendEmailRequest)
  : World -> result value * World :=
  http_post "/api/v1/emails/batch"
            (Some (VDict [("emails", VList (map model_dump emails))])).

Definition send_batch (_retry_config : RetryConfig float)
    (emails : list SendEmailRequest) (w : World) : option (run World value float) :=
  with_retry (AsyncDef (_send_batch emails))
             {| max_attempts := max_attempts _retry_config;
                initial_delay := initial_delay _retry_config;
                max_delay := max_delay with_retry_defaults;
                exponential_base := exponential_base with_retry_defaults |}
             w.

(** [DomainsResource.verify]: [with_retry(_verify)]. *)
Definition _verify (id : string) : World -> result value * World :=
  http_post ("/api/v1/domains/" ++ id ++ "/verify") None.

Definition verify (_retry_config : RetryConfig float) (id : string) (w : World)
  : option (run World value float) :=
  with_retry (AsyncDef (_verify id)) with_retry_defaults w.

(** [DomainsResource.delete]: [with_retry(_delete)]. *)
Definition _delete (id : string) : World -> result value * World :=
  http_delete ("/api/v1/domains/" ++ id).

Definition domain_delete (_retry_config : RetryConfig float) (id : string) (w : World)
  : option (run World value float) :=
  with_retry (AsyncDef (_delete id)) with_retry_defaults w.

(** [ContactsResource.delete]:
    [with_retry(lambda: self._http.delete(f"/api/v1/contacts/{id}"))]. *)
Definition contact_delete (_retry_config : RetryConfig float) (id : string)
    (w : World) : option (run World value float) :=
  with_retry (Lambda (http_delete ("/api/v1/contacts/" ++ id)))
             with_retry_defaults w.

(** The answers the service gives to [n] consecutive sends of [out]. *)
Fixpoint exchanges (out : outgoing) (n : nat) (service : Service)
  : list exchange :=
  match n with
  | O => []
  | S n' =>
      let '(answer, service') := respond service out in
      answer :: exchanges out n' service'
  end.

End Resources.

End Resources.

(* ------------------------------------------------------------------ *)
(** ** Concrete services and further responses *)

Module Services.
Import Py Floats Httpx Exceptions Http Verbs Tenacity Retry Scenarios Resources.

(** 429 with rate-limit headers and a numeric [Retry-After]. *)
Definition throttled_with_limits : Response :=
  response_of 429
    [("x-ratelimit-limit", "100"); ("x-ratelimit-remaining", "0");
     ("x-ratelimit-reset", "1700000000"); ("retry-after", "30")]
    ("{" ++ quoted "message" ++ ": " ++ quoted "Too many requests" ++ "}")
    (Some (VDict [("message", VStr "Too many requests")])).

(** 402, a status the handler has no class for. *)
Definition payment_required : Response :=
  response_of 402 []
    ("{" ++ quoted "message" ++ ": " ++ quoted "Payment required" ++ "}")
    (Some (VDict [("message", VStr "Payment required")])).

(** 200 answering an address validation, with rate-limit headers. *)
Definition validation_result : Response :=
  response_of 200
    [("x-ratelimit-limit", "100"); ("x-ratelimit-remaining", "42")]
    ("{" ++ quoted "valid" ++ ": true}")
    (Some (VDict [("valid", VBool true)])).

Definition connection_refused : RequestError :=
  {| error_text := "connection refused" |}.

(** A service that cannot be reached; its state counts the sends. *)
Definition unreachable (sends : nat) (_ : outgoing) : exchange * nat :=
  (Failed connection_refused, S sends).

(** A service that cannot be reached for the first [failures] sends and
    then answers every send with [validation_result]. *)
Definition recovering (failures : nat) (sends : nat) (_ : outgoing)
  : exchange * nat :=
  if Nat.ltb sends failures then (Failed connection_refused, S sends)
  else (Received validation_result, S sends).

(** A service that answers every send with the same response. *)
Definition answering (r : Response) (sends : nat) (_ : outgoing)
  : exchange * nat :=
  (Received r, S sends).

Definition fresh_world : World nat := (fresh_client, O).

(** A client configured with five attempts, a 4 second initial delay and
    a 1 second cap. *)
Definition capped_at_one_second : RetryConfig Q :=
  {| max_attempts := 5; initial_delay := 4%Q; max_delay := 1%Q;
     exponential_base := 3%Q |}.

End Services.

(* ------------------------------------------------------------------ *)
(** ** Facts about the string operations *)

Module PyFacts.
Import Py.

Lemma prefix_has_prefix (p s : string) :
  String.prefix p s = true <-> has_prefix p s.
Proof.
  revert s; induction p as [|a p IH]; intros s; simpl.
  - split; [intros _; exists s; reflexivity | intros _; now destruct s].
  - destruct s as [|b s].
    + split; [discriminate | intros [rest H]; discriminate].
    + simpl. destruct (ascii_dec a b) as [->|Hab].
      * rewrite IH. split; intros [rest H]; exists rest.
        -- simpl; now rewrite H.
        -- simpl in H; now inversion H.
      * split; [discriminate | intros [rest H]; simpl in H; inversion H; congruence].
Qed.

Lemma py_in_eq (needle hay : string) :
  py_in needle hay =
  if String.prefix needle hay then true
  else match hay with
       | EmptyString => false
       | String _ hay' => py_in needle hay'
       end.
Proof. destruct hay; reflexivity. Qed.

Lemma py_in_has_substring (needle hay : string) :
  py_in needle hay = true <-> has_substring needle hay.
Proof.
  induction hay as [|c hay IH]; rewrite py_in_eq.
  - destruct (String.prefix needle "") eqn:E.
    + split; [intros _ | reflexivity].
      apply prefix_has_prefix in E. destruct E as [rest E].
      exists "", rest. exact E.
    + split; [discriminate|].
      intros [pre [post H]].
      destruct pre; simpl in H; [|discriminate].
      assert (String.prefix needle "" = true) as E'
          by (apply prefix_has_prefix; exists post; exact H).
      congruence.
  - destruct (String.prefix needle (String c hay)) eqn:E.
    + split; [intros _ | reflexivity].
      apply prefix_has_prefix in E. destruct E as [rest E].
      exists "", rest. exact E.
    + rewrite IH. split.
      * intros [pre [post H]]. exists (String c pre), post. simpl. now rewrite H.
      * intros [pre [post H]]. destruct pre as [|a pre]; simpl in H.
        -- assert (String.prefix needle (String c hay) = true) as E'
               by (apply prefix_has_prefix; exists post; exact H).
           congruence.
        -- inversion H; subst. exists pre, post. reflexivity.
Qed.

End PyFacts.

(* ------------------------------------------------------------------ *)
(** ** Facts about the retry loop *)

Module TenacityFacts.
Import Exceptions Tenacity.

Section Loop.
Variables W T float : Type.
Variable max_attempt_number : Z.
Variable wait : Z -> float.
Variable retry : exn -> bool.
Variable fn : W -> result T * W.

Local Notation loop :=
  (iterate (stop_after_attempt max_attempt_number) wait retry true fn).

Lemma stop_after_attempt_true n :
  stop_after_attempt max_attempt_number n = true <-> max_attempt_number <= n.
Proof. unfold stop_after_attempt. rewrite Z.geb_le. reflexivity. Qed.

Lemma stop_after_attempt_false n :
  stop_after_attempt max_attempt_number n = false <-> n < max_attempt_number.
Proof.
  unfold stop_after_attempt.
  destruct (Z.geb_spec n max_attempt_number); split; intros; try lia; congruence.
Qed.

(** The loop always finishes when it is given one iteration per attempt
    still allowed. *)
Lemma iterate_returns fuel :
  forall n w,
    (Z.to_nat (max_attempt_number - n) < fuel)%nat ->
    exists r, loop fuel n w = Some r.
Proof.
  induction fuel as [|fuel IH]; intros n w Hfuel; [lia|].
  cbn [iterate]. destruct (fn w) as [[v|e] w'].
  - eexists; reflexivity.
  - destruct (retry e); cbn [negb]; [|eexists; reflexivity].
    destruct (stop_after_attempt max_attempt_number n) eqn:Hstop.
    + eexists; reflexivity.
    + apply stop_after_attempt_false in Hstop.
      destruct (IH (n + 1) w') as [r Hr]; [lia|].
      rewrite Hr. eexists; reflexivity.
Qed.

Lemma schedule_head n more :
  exists rest, schedule wait n more = Call n :: rest.
Proof. destruct more; eexists; reflexivity. Qed.

(** A run is one call, then a sleep and a call per retry. *)
Lemma iterate_trace fuel :
  forall n w r,
    loop fuel n w = Some r ->
    n <= attempts r /\
    trace r = schedule wait n (Z.to_nat (attempts r - n)).
Proof.
  induction fuel as [|fuel IH]; intros n w r; [discriminate|].
  cbn [iterate]. destruct (fn w) as [[v|e] w'].
  - intros [= <-]. cbn. rewrite Z.sub_diag. split; [lia | reflexivity].
  - destruct (retry e); cbn [negb].
    2:{ intros [= <-]. cbn. rewrite Z.sub_diag. split; [lia | reflexivity]. }
    destruct (stop_after_attempt max_attempt_number n).
    { intros [= <-]. cbn. rewrite Z.sub_diag. split; [lia | reflexivity]. }
    destruct (loop fuel (n + 1) w') as [r'|] eqn:Hr'; [|discriminate].
    intros [= <-]. destruct (IH _ _ _ Hr') as [Hle Htr].
    cbn [after attempts trace app]. split; [lia|].
    replace (Z.to_nat (attempts r' - n))
      with (S (Z.to_nat (attempts r' - (n + 1)))) by lia.
    cbn [schedule]. now rewrite Htr.
Qed.

(** No run goes past attempt [max_attempt_number] (or past its first
    attempt, when that is already beyond it). *)
Lemma iterate_bound fuel :
  forall n w r,
    loop fuel n w = Some r -> attempts r <= Z.max n max_attempt_number.
Proof.
  induction fuel as [|fuel IH]; intros n w r; [discriminate|].
  cbn [iterate]. destruct (fn w) as [[v|e] w'].
  - intros [= <-]. cbn. lia.
  - destruct (retry e); cbn [negb]; [|intros [= <-]; cbn; lia].
    destruct (stop_after_attempt max_attempt_number n) eqn:Hstop;
      [intros [= <-]; cbn; lia|].
    apply stop_after_attempt_false in Hstop.
    destruct (loop fuel (n + 1) w') as [r'|] eqn:Hr'; [|discriminate].
    intros [= <-]. specialize (IH _ _ _ Hr'). cbn. lia.
Qed.

(** A returned value ends the run at once. *)
Lemma iterate_success fuel n w v w' :
  fn w = (Return v, w') ->
  loop (S fuel) n w = Some (finish (Return v) n w').
Proof. intros H. cbn [iterate]. now rewrite H. Qed.

(** An exception the predicate rejects ends the run at once and reaches
    the caller as it was raised. *)
Lemma iterate_not_retried fuel n w e w' :
  fn w = (Raise e, w') -> retry e = false ->
  loop (S fuel) n w = Some (finish (Raise e) n w').
Proof. intros H Hr. cbn [iterate]. now rewrite H, Hr. Qed.

Lemma state_after_shift k w :
  state_after fn k (snd (fn w)) = state_after fn (S k) w.
Proof.
  unfold state_after. symmetry. apply Nat.iter_succ_r.
Qed.

(** When every call raises a retried exception the loop runs to the
    stop condition and re-raises what the last call raised. *)
Lemma iterate_exhausts fuel :
  (forall w, exists e w', fn w = (Raise e, w') /\ retry e = true) ->
  forall n w,
    (Z.to_nat (max_attempt_number - n) < fuel)%nat ->
    exists r,
      loop fuel n w = Some r /\
      attempts r = Z.max n max_attempt_number /\
      (outcome r, final r)
      = fn (state_after fn (Z.to_nat (attempts r - n)) w).
Proof.
  intros Hfail. induction fuel as [|fuel IH]; intros n w Hfuel; [lia|].
  cbn [iterate]. destruct (Hfail w) as (e & w' & Hw & He).
  rewrite Hw, He. cbn [negb].
  destruct (stop_after_attempt max_attempt_number n) eqn:Hstop.
  - apply stop_after_attempt_true in Hstop.
    eexists; split; [reflexivity|]. cbn. split; [lia|].
    rewrite Z.sub_diag. cbn. now rewrite Hw.
  - apply stop_after_attempt_false in Hstop.
    destruct (IH (n + 1) w') as (r & Hr & Hatt & Hout); [lia|].
    rewrite Hr. eexists; split; [reflexivity|]. cbn. split; [lia|].
    rewrite Hout.
    replace (Z.to_nat (attempts r - n))
      with (S (Z.to_nat (attempts r - (n + 1)))) by lia.
    rewrite <- state_after_shift. now rewrite Hw.
Qed.

End Loop.

Section Traces.
Variable float : Type.
Variable wait : Z -> float.

Lemma delay_before_earlier more :
  forall n k, k <= n -> delay_before (schedule wait n more) k = None.
Proof.
  induction more as [|more IH]; intros n k Hk; [reflexivity|].
  cbn [schedule]. cbn [delay_before].
  destruct (schedule_head wait (n + 1) more) as [rest Hrest].
  rewrite Hrest. destruct (Z.eqb_spec (n + 1) k); [lia|].
  rewrite <- Hrest. apply IH. lia.
Qed.

(** In a schedule that starts at attempt [n], the sleep before a later
    attempt [k] is the wait computed after attempt [k - 1]. *)
Lemma delay_before_schedule more :
  forall n k,
    n < k <= n + Z.of_nat more ->
    delay_before (schedule wait n more) k = Some (wait (k - 1)).
Proof.
  induction more as [|more IH]; intros n k Hk; [lia|].
  cbn [schedule]. cbn [delay_before].
  destruct (schedule_head wait (n + 1) more) as [rest Hrest].
  rewrite Hrest. destruct (Z.eqb_spec (n + 1) k) as [<-|Hne].
  - now replace (n + 1 - 1) with n by lia.
  - rewrite <- Hrest. apply IH. lia.
Qed.

Lemma calls_schedule more : forall n, calls (schedule wait n more) = S more.
Proof.
  induction more as [|more IH]; intros n; [reflexivity|].
  cbn [schedule calls]. now rewrite IH.
Qed.

Lemma sleeps_schedule more :
  forall n,
    sleeps (schedule wait n more)
    = map (fun i => wait (n + Z.of_nat i)) (seq 0 more).
Proof.
  induction more as [|more IH]; intros n; [reflexivity|].
  cbn [schedule sleeps seq map]. rewrite IH, <- seq_shift, map_map.
  f_equal; [now rewrite Z.add_0_r|].
  apply map_ext. intros i. f_equal. lia.
Qed.

End Traces.

End TenacityFacts.

(* ------------------------------------------------------------------ *)
(** ** The resilient invoker: [with_retry] *)

Module RetryFacts.
Import Py Floats Exceptions Tenacity Retry TenacityFacts Scenarios.

Section Invoker.
Context {float : Type} `{FloatOps float}.
Variables W T : Type.
Variable func : callable W T.
Variable c : RetryConfig float.

(** [with_retry] always finishes: the iterations it is given suffice. *)
Lemma with_retry_returns (w : W) : exists r, with_retry func c w = Some r.
Proof.
  unfold with_retry, create_retry_decorator. destruct func as [body|body].
  - apply iterate_returns. lia.
  - destruct (body w) as [out w']. eexists. reflexivity.
Qed.

Lemma with_retry_trace (w : W) (r : run W T float) :
  with_retry func c w = Some r ->
  1 <= attempts r <= Z.max 1 (max_attempts c) /\
  trace r = schedule (backoff c) 1 (Z.to_nat (attempts r - 1)).
Proof.
  unfold with_retry, create_retry_decorator. destruct func as [body|body].
  - intros Hr.
    destruct (iterate_trace _ _ _ _ _ _ _ Hr) as [Hle Htr].
    pose proof (iterate_bound _ _ _ _ _ _ _ Hr) as Hub.
    repeat split; assumption.
  - destruct (body w) as [out w']. intros [= <-]. cbn. split; [lia|reflexivity].
Qed.

Lemma with_retry_success (w w' : W) (v : T) :
  body_of func w = (Return v, w') ->
  with_retry func c w = Some (finish (Return v) 1 w').
Proof.
  unfold with_retry, create_retry_decorator. destruct func as [body|body];
    cbn [body_of]; intros Hb.
  - now apply iterate_success.
  - now rewrite Hb.
Qed.

(** An exception outside [(NetworkError, ServerError, RateLimitError)]
    reaches the caller after one call, as it was raised. *)
Lemma with_retry_not_retried (w w' : W) (e : exn) :
  body_of func w = (Raise e, w') -> retried_types e = false ->
  with_retry func c w = Some (finish (Raise e) 1 w').
Proof.
  unfold with_retry, create_retry_decorator. destruct func as [body|body];
    cbn [body_of]; intros Hb He.
  - now apply iterate_not_retried.
  - now rewrite Hb.
Qed.

End Invoker.

Section Kinds.
Context {float : Type} `{FloatOps float}.
Variables W T : Type.
Variable body : W -> result T * W.
Variable c : RetryConfig float.

(** A [lambda] is called once, whatever it raises when awaited. *)
Lemma with_retry_lambda (w : W) :
  with_retry (Lambda body) c w = Some (finish (fst (body w)) 1 (snd (body w))).
Proof.
  unfold with_retry, create_retry_decorator. now destruct (body w).
Qed.

(** When every call of an [async def] raises one of the three retried
    classes, [with_retry] makes [max_attempts] calls (one when
    [max_attempts < 1]) and re-raises what the last call raised. *)
Lemma with_retry_exhausts (w : W) :
  (forall w, exists e w', body w = (Raise e, w') /\ retried_types e = true) ->
  exists r,
    with_retry (AsyncDef body) c w = Some r /\
    attempts r = Z.max 1 (max_attempts c) /\
    calls (trace r) = Z.to_nat (Z.max 1 (max_attempts c)) /\
    (outcome r, final r) = body (state_after body (Z.to_nat (attempts r - 1)) w).
Proof.
  intros Hfail.
  destruct (iterate_exhausts (max_attempts c) (backoff c)
              (retry_if_exception_type retried_types) body
              (fuel := S (Z.to_nat (max_attempts c - 1))) Hfail 1 w)
    as (r & Hr & Hatt & Hout); [lia|].
  exists r. split; [exact Hr|]. split; [exact Hatt|]. split; [|exact Hout].
  destruct (with_retry_trace (AsyncDef body) c w Hr) as [_ Htr].
  rewrite Htr, calls_schedule. lia.
Qed.

(** The wait computed after attempt [k - 1]: [max_delay] when the power
    overflows, and otherwise the specified delay before attempt [k], raised
    to 0 when that is below 0. *)
Lemma backoff_clamped (k : Z) :
  backoff c (k - 1)
  = match specified_delay c k with
    | None => max_delay c
    | Some d => py_max (float_of 0) d
    end.
Proof.
  unfold backoff, wait_exponential, specified_delay.
  replace (k - 1 - 1) with (k - 2) by lia.
  destruct (float_pow (exponential_base c) (k - 2)); [|reflexivity].
  f_equal. unfold py_max. now destruct (float_lt (float_of 0) (float_of 0)).
Qed.

End Kinds.

End RetryFacts.

(* ------------------------------------------------------------------ *)
(** ** The transport: snapshot and classification *)

Module TransportFacts.
Import Py Httpx Exceptions Http PyFacts.

Section Transport.
Variable py_int : string -> option Z.
Variable fromtimestamp : Z -> builtin + datetime.

Local Notation _update_rate_limit := (_update_rate_limit py_int fromtimestamp).
Local Notation request := (request py_int fromtimestamp).
Local Notation snapshot_of := (snapshot_of py_int fromtimestamp).
Local Notation carries_snapshot := (carries_snapshot py_int fromtimestamp).
Local Notation process := (process py_int fromtimestamp).
Local Notation _handle_error_response := (_handle_error_response py_int).

(** A header that is absent or empty converts to [None]. *)
Lemma int_if_present_falsy (h : option string) :
  header_truthy h = false -> int_if_present py_int h = Return None.
Proof.
  destruct h as [s|]; cbn; [|reflexivity]. now intros ->.
Qed.

Lemma datetime_if_present_falsy (h : option string) :
  header_truthy h = false ->
  datetime_if_present py_int fromtimestamp h = Return None.
Proof.
  intros H. unfold datetime_if_present. now rewrite int_if_present_falsy.
Qed.

(** The only exception [int(h) if h else None] raises is [ValueError]. *)
Lemma int_if_present_raises (h : option string) (e : exn) :
  int_if_present py_int h = Raise e -> e = Builtin Py.ValueError.
Proof.
  destruct h as [s|]; cbn; [|discriminate].
  destruct (str_truthy s); [|discriminate].
  destruct (py_int s); [discriminate|]. now intros [= <-].
Qed.

(** A response that carries a snapshot installs exactly that snapshot. *)
Lemma update_carries (self : HttpClient) (response : Response) :
  carries_snapshot response = true ->
  _update_rate_limit self response
  = (Return tt, set_rate_limit_info self (snapshot_of response)).
Proof.
  unfold Http.carries_snapshot, Http._update_rate_limit, Http.snapshot_of,
    has_rate_limit_value.
  intros H. apply andb_true_iff in H. destruct H as [Hv Hs]. rewrite Hv.
  destruct (int_if_present py_int (headers response "x-ratelimit-limit"));
    [|discriminate].
  destruct (int_if_present py_int (headers response "x-ratelimit-remaining"));
    [|discriminate].
  destruct (datetime_if_present py_int fromtimestamp
              (headers response "x-ratelimit-reset"));
    [reflexivity|discriminate].
Qed.

(** Any other response leaves the client as it was. *)
Lemma update_not_carries (self : HttpClient) (response : Response) :
  carries_snapshot response = false ->
  snd (_update_rate_limit self response) = self.
Proof.
  unfold Http.carries_snapshot, Http._update_rate_limit, Http.snapshot_of,
    has_rate_limit_value.
  intros H.
  destruct (header_truthy (headers response "x-ratelimit-limit")
            || header_truthy (headers response "x-ratelimit-remaining")
            || header_truthy (headers response "x-ratelimit-reset"));
    [|reflexivity].
  cbn [andb] in H.
  destruct (int_if_present py_int (headers response "x-ratelimit-limit"));
    [|reflexivity].
  destruct (int_if_present py_int (headers response "x-ratelimit-remaining"));
    [|reflexivity].
  destruct (datetime_if_present py_int fromtimestamp
              (headers response "x-ratelimit-reset"));
    [discriminate|reflexivity].
Qed.

(** Error classification never touches the client: after a response the
    client is what [_update_rate_limit] left. *)
Lemma request_state (self : HttpClient) (method path : string)
    (response : Response) :
  snd (request self method path (Received response))
  = snd (_update_rate_limit self response).
Proof.
  cbn [Http.request].
  destruct (_update_rate_limit self response) as [[[]|e] self']; cbn [snd];
    [|reflexivity].
  destruct (negb (is_success response)); [|reflexivity].
  destruct (_handle_error_response response); reflexivity.
Qed.

Lemma request_snapshot (self : HttpClient) (method path : string)
    (response : Response) :
  _rate_limit_info (snd (request self method path (Received response)))
  = if carries_snapshot response then snapshot_of response
    else _rate_limit_info self.
Proof.
  rewrite request_state.
  destruct (carries_snapshot response) eqn:E.
  - now rewrite update_carries.
  - now rewrite update_not_carries.
Qed.

Lemma no_header_no_value (response : Response) :
  has_rate_limit_header response = false ->
  carries_snapshot response = false.
Proof.
  unfold has_rate_limit_header, Http.carries_snapshot, has_rate_limit_value.
  destruct (headers response "x-ratelimit-limit"),
           (headers response "x-ratelimit-remaining"),
           (headers response "x-ratelimit-reset"); try discriminate.
  reflexivity.
Qed.

Lemma process_app (self : HttpClient) (rs rs' : list Response) :
  process self (rs ++ rs') = process (process self rs) rs'.
Proof.
  unfold Http.process. revert self.
  induction rs as [|r rs IH]; intros self; [reflexivity|].
  cbn [map app serve]. apply IH.
Qed.

(** After any sequence of responses the snapshot is the one built from the
    last response that carries one; without such a response it is the
    initial snapshot. *)
Lemma process_snapshot (self : HttpClient) (rs : list Response) :
  _rate_limit_info (process self rs)
  = match find carries_snapshot (rev rs) with
    | Some r => snapshot_of r
    | None => _rate_limit_info self
    end.
Proof.
  induction rs as [|r rs IH] using rev_ind; [reflexivity|].
  rewrite process_app, rev_app_distr. cbn [rev app find].
  unfold Http.process at 1. cbn [map serve].
  rewrite request_snapshot.
  destruct (carries_snapshot r); [reflexivity|exact IH].
Qed.

End Transport.

End TransportFacts.

(* ------------------------------------------------------------------ *)
(** ** Classification of error responses *)

Module ClassificationFacts.
Import Py Httpx Exceptions Http PyFacts TransportFacts.

(** Decide the chain of status tests once the status is known. *)
Ltac status_tests :=
  repeat match goal with
         | |- context [Z.eqb ?a ?b] => destruct (Z.eqb_spec a b); try lia
         | |- context [Z.leb ?a ?b] => destruct (Z.leb_spec a b); try lia
         | |- context [Z.ltb ?a ?b] => destruct (Z.ltb_spec a b); try lia
         end.

Ltac open_handler :=
  unfold _handle_error_response;
  match goal with
  | |- context [error_body ?r] => destruct (error_body r) as [data msg] eqn:Hbody
  end; cbn [snd fst].

Section Classification.
Variable py_int : string -> option Z.

Local Notation classify := (_handle_error_response py_int).

Lemma classify_401 (r : Response) :
  status_code r = 401 ->
  classify r = Raise (AuthenticationError (snd (error_body r))).
Proof. intros H. open_handler. rewrite H. reflexivity. Qed.

Lemma classify_403 (r : Response) :
  status_code r = 403 ->
  classify r = Raise (ScopeError (snd (error_body r))).
Proof. intros H. open_handler. rewrite H. reflexivity. Qed.

Lemma classify_404 (r : Response) :
  status_code r = 404 ->
  classify r = Raise (NotFoundError (snd (error_body r))).
Proof. intros H. open_handler. rewrite H. reflexivity. Qed.

(** 400 with a body that [json()] parses: a [ValidationError] with the
    [errors] field of an object body. *)
Lemma classify_400_parsed (r : Response) (data : value) :
  status_code r = 400 -> json r = Some data ->
  classify r
  = Raise (ValidationError_init (snd (error_body r))
             (match data with
              | VDict d => dict_get d "errors" VNone
              | _ => VNone
              end)).
Proof.
  intros H Hj. unfold _handle_error_response, error_body.
  rewrite H, Hj. destruct data; reflexivity.
Qed.

(** 400 with a body that [json()] rejects: [error_data] was never bound
    and the [isinstance] test on it raises. *)
Lemma classify_400_unparsed (r : Response) :
  status_code r = 400 -> json r = None ->
  classify r = Raise (Builtin UnboundLocalError).
Proof.
  intros H Hj. unfold _handle_error_response, error_body.
  rewrite H, Hj. reflexivity.
Qed.

Lemma classify_5xx (r : Response) :
  500 <= status_code r <= 599 ->
  classify r = Raise (ServerError (snd (error_body r)) (status_code r)).
Proof.
  intros H. open_handler. status_tests. reflexivity.
Qed.

(** 429 with a message that is a string. *)
Lemma classify_429 (r : Response) (m : string) :
  status_code r = 429 -> snd (error_body r) = VStr m ->
  classify r
  = if py_in "quota" (lower m)
    then Raise (QuotaExceededError (VStr m) None None)
    else match int_if_present py_int (headers r "retry-after") with
         | Raise e => Raise e
         | Return n => Raise (RateLimitError (VStr m) n)
         end.
Proof.
  intros H Hm. open_handler. cbn [snd] in Hm. subst msg.
  rewrite H. reflexivity.
Qed.

(** 429 with a message that is not a string: [.lower()] does not exist. *)
Lemma classify_429_not_a_string (r : Response) :
  status_code r = 429 ->
  (forall m, snd (error_body r) <> VStr m) ->
  classify r = Raise (Builtin AttributeError).
Proof.
  intros H Hm. open_handler. cbn [snd] in Hm. rewrite H. cbn.
  destruct msg; try reflexivity. now elim (Hm s).
Qed.


End Classification.

End ClassificationFacts.

(* ------------------------------------------------------------------ *)
(** ** The properties of the specification *)

Module Properties.
Import Py Floats Httpx Exceptions Http Tenacity Retry Client Scenarios.
Import Resources.
Import PyFacts TenacityFacts RetryFacts TransportFacts ClassificationFacts.

(** C1. The specification says a [RateLimitError] is retried if and only if
    it carries a [retry_after], and is propagated after a single attempt
    otherwise. [is_retryable_error] implements that rule, but the decorator
    does not use it: it retries every [RateLimitError]. Here the predicate
    the decorator uses accepts every [RateLimitError]; and an operation that
    always raises one without [retry_after] is called three times under the
    default configuration, with sleeps of 1 and 2 seconds, although
    [is_retryable_error] rejects the exception. *)
Theorem rate_limit_without_retry_after_is_retried :
  (forall message retry_after,
      retry_if_exception_type retried_types
        (RateLimitError message retry_after) = true) /\
  is_retryable_error rate_limited_no_hint = false /\
  with_retry (AsyncDef (always_raises rate_limited_no_hint))
             (DEFAULT_RETRY_CONFIG : RetryConfig Q) 0%nat
  = Some {| outcome := Raise rate_limited_no_hint;
            attempts := 3;
            trace := [Call 1; Sleep 1%Q; Call 2; Sleep 2%Q; Call 3];
            final := 3%nat |}.
Proof. repeat split. Qed.

(** C2, as stated, fails: with [initial_delay = -1.0] the sleep before the
    second attempt is 0, not [min(-1.0 * 2.0 ** 0, 10.0) = -1.0]. *)
Lemma negative_delay_is_clamped :
  exists r,
    with_retry (AsyncDef (always_raises connection_reset)) negative_delay 0%nat
    = Some r /\
    2 <= attempts r /\
    delay_before (trace r) 2 = Some 0%Q /\
    specified_delay negative_delay 2 = Some (-1)%Q /\
    ~ (0 == -1)%Q.
Proof.
  eexists. split; [reflexivity|]. cbn. repeat split; [lia|].
  intros H. discriminate H.
Qed.

(** C2, amended. Whatever the floating-point operations compute, and
    whether the operation is an [async def] or a [lambda]: every call of
    [with_retry] finishes; nothing is slept before the first attempt; and
    before every later attempt [k] that is made, the sleep is
    [max(0, min(initial_delay * exponential_base ** (k - 2), max_delay))],
    or [max_delay] itself when the power raises [OverflowError]; hence it is
    [min(initial_delay * exponential_base ** (k - 2), max_delay)] whenever
    that value is above 0. With [initial_delay = 1.0], [max_delay = 10.0],
    [exponential_base = 2.0] and [max_attempts = 5], where the arithmetic is
    exact, the sleeps before attempts 2 to 5 are 1, 2, 4 and 8. With
    [max_delay = -1.0] and [exponential_base = 2.0 ** 600] the power
    overflows at attempt 4 and the sleep before it is -1. *)
Theorem backoff_schedule :
  (forall (float : Type) (ops : FloatOps float) (W T : Type)
          (func : callable W T) (c : RetryConfig float) (w : W),
      exists r,
        with_retry func c w = Some r /\
        delay_before (trace r) 1 = None /\
        forall k, 2 <= k <= attempts r ->
          delay_before (trace r) k
          = Some (match specified_delay c k with
                  | None => max_delay c
                  | Some d => py_max (float_of 0) d
                  end) /\
          (forall d, specified_delay c k = Some d ->
                     float_lt (float_of 0) d = true ->
                     delay_before (trace r) k = Some d)) /\
  (exists r,
      with_retry (AsyncDef (always_raises connection_reset)) five_attempts 0%nat
      = Some r /\
      attempts r = 5 /\
      sleeps (trace r) = [1; 2; 4; 8]%Q /\
      map (delay_before (trace r)) [1; 2; 3; 4; 5]
      = [None; Some 1; Some 2; Some 4; Some 8]%Q) /\
  (exists r,
      @with_retry Q ranged nat value
        (AsyncDef (always_raises connection_reset)) overflowing 0%nat
      = Some r /\
      attempts r = 4 /\
      @specified_delay Q ranged overflowing 4 = None /\
      delay_before (trace r) 4 = Some (max_delay overflowing) /\
      max_delay overflowing = (-1)%Q).
Proof.
  split; [|split].
  3:{ eexists. split; [vm_compute; reflexivity|].
      repeat split; vm_compute; reflexivity. }
  - intros float ops W T func c w.
    destruct (with_retry_returns func c w) as [r Hr].
    destruct (with_retry_trace _ _ _ Hr) as [[Hlo _] Htr].
    exists r. split; [exact Hr|]. rewrite Htr. split.
    + apply delay_before_earlier. lia.
    + intros k Hk.
      assert (Hd : delay_before (schedule (backoff c) 1
                                   (Z.to_nat (attempts r - 1))) k
                   = Some (backoff c (k - 1)))
        by (apply delay_before_schedule; lia).
      rewrite Hd, backoff_clamped. split; [reflexivity|].
      intros d -> Hpos. unfold py_max. now rewrite Hpos.
  - eexists. split; [reflexivity|]. repeat split.
Qed.

Lemma backoff_schedule_witness :
  exists r,
    with_retry (AsyncDef (always_raises connection_reset)) five_attempts 0%nat
    = Some r /\
    delay_before (trace r) 4 = Some 4%Q.
Proof.
  destruct (proj1 backoff_schedule Q exact nat value
              (AsyncDef (always_raises connection_reset)) five_attempts 0%nat)
    as (r & Hr & _ & Hk).
  assert (Ha : attempts r = 5).
  { vm_compute in Hr. injection Hr as <-. reflexivity. }
  destruct (Hk 4 ltac:(lia)) as [_ Hpos].
  exists r. split; [exact Hr|].
  apply Hpos; reflexivity.
Defined.

(** C5 fails on the code for the operations passed as a [lambda], the form
    of most call sites ([with_retry(lambda: self._http.get(...))]): such an
    operation is called once, whatever it raises and whatever the policy, so
    a [ServerError] is propagated after that single call, where the same
    operation written as an [async def] is called [max_attempts] times.
    Against a service that answers 503 to every request,
    [ContactsResource.delete] (a [lambda]) sends one request and
    [DomainsResource.delete] (an [async def]) three. *)
Theorem server_errors_not_retried_for_lambdas :
  (forall (float : Type) (ops : FloatOps float) (W T : Type)
          (body : W -> result T * W) (c : RetryConfig float) (w : W),
      with_retry (Lambda body) c w
      = Some (finish (fst (body w)) 1 (snd (body w)))) /\
  with_retry (Lambda (always_raises (ServerError (VStr "Service unavailable") 503)))
             five_attempts 0%nat
  = Some {| outcome := Raise (ServerError (VStr "Service unavailable") 503);
            attempts := 1;
            trace := [Call 1];
            final := 1%nat |} /\
  with_retry (AsyncDef (always_raises (ServerError (VStr "Service unavailable") 503)))
             five_attempts 0%nat
  = Some {| outcome := Raise (ServerError (VStr "Service unavailable") 503);
            attempts := 5;
            trace := [Call 1; Sleep 1%Q; Call 2; Sleep 2%Q; Call 3; Sleep 4%Q;
                      Call 4; Sleep 8%Q; Call 5];
            final := 5%nat |} /\
  contact_delete decimal_int any_timestamp (Services.answering unavailable)
    five_attempts "c1" Services.fresh_world
  = Some {| outcome := Raise (ServerError (VStr "Service unavailable") 503);
            attempts := 1;
            trace := [Call 1];
            final := (fresh_client, 1%nat) |} /\
  domain_delete decimal_int any_timestamp (Services.answering unavailable)
    five_attempts "d1" Services.fresh_world
  = Some {| outcome := Raise (ServerError (VStr "Service unavailable") 503);
            attempts := 3;
            trace := [Call 1; Sleep 1%Q; Call 2; Sleep 2%Q; Call 3];
            final := (fresh_client, 3%nat) |}.
Proof.
  split; [|repeat split].
  intros. apply with_retry_lambda.
Qed.

(** What does hold: a response with a status from 500 to 599 is
    classified as a [ServerError] whose [status_code] is that status; and an
    [async def] that fails with a [ServerError] on every call is called
    [max_attempts] times in all (once when [max_attempts] is below 1, the
    first call being unconditional), after which the caller receives exactly
    what the last call raised. *)
Lemma server_errors_classified_and_retried :
  (forall (py_int : string -> option Z) (response : Response),
      500 <= status_code response <= 599 ->
      exists message,
        _handle_error_response py_int response
        = Raise (ServerError message (status_code response)) /\
        status_code_of (ServerError message (status_code response))
        = Some (status_code response)) /\
  (forall (float : Type) (ops : FloatOps float) (W T : Type)
          (body : W -> result T * W) (c : RetryConfig float),
      (forall w, exists message status w',
            body w = (Raise (ServerError message status), w')) ->
      forall w,
      exists r,
        with_retry (AsyncDef body) c w = Some r /\
        attempts r = Z.max 1 (max_attempts c) /\
        (1 <= max_attempts c -> attempts r = max_attempts c) /\
        calls (trace r) = Z.to_nat (attempts r) /\
        (outcome r, final r)
        = body (state_after body (Z.to_nat (attempts r - 1)) w) /\
        exists message status, outcome r = Raise (ServerError message status)).
Proof.
  split.
  - intros py_int response H. eexists. split; [|reflexivity].
    now apply classify_5xx.
  - intros float ops W T body c Hfail w.
    assert (Hretried : forall w, exists e w',
               body w = (Raise e, w') /\ retried_types e = true).
    { intros w0. destruct (Hfail w0) as (m & s & w' & Hw).
      now exists (ServerError m s), w'. }
    destruct (with_retry_exhausts body c w Hretried)
      as (r & Hr & Hatt & Hcalls & Hout).
    exists r. split; [exact Hr|]. split; [exact Hatt|].
    split; [lia|]. split; [now rewrite Hatt|]. split; [exact Hout|].
    destruct (Hfail (state_after body (Z.to_nat (attempts r - 1)) w))
      as (m & s & w' & Hw).
    rewrite Hw in Hout. injection Hout as Ho _. now exists m, s.
Qed.

(** C3, as stated, fails: a response whose rate-limit header is present
    with an empty value is the most recent response that has one of the
    three headers, yet the snapshot stays the one of the response before
    it; the same happens when the header value is not a number (the request
    then raises [ValueError]). *)
Lemma empty_rate_limit_header_keeps_snapshot :
  find has_rate_limit_header (rev [ok_with_limits; ok_with_empty_limit])
  = Some ok_with_empty_limit /\
  _rate_limit_info
    (process decimal_int any_timestamp fresh_client
       [ok_with_limits; ok_with_empty_limit])
  = Some {| limit := Some 100; remaining := Some 99; reset := None |} /\
  _rate_limit_info
    (process decimal_int any_timestamp fresh_client
       [ok_with_limits; ok_with_empty_limit])
  <> _rate_limit_info
       (process decimal_int any_timestamp fresh_client [ok_with_empty_limit]) /\
  has_rate_limit_header ok_with_bad_limit = true /\
  fst (request decimal_int any_timestamp fresh_client "GET" "/"
         (Received ok_with_bad_limit))
  = Raise (Builtin Py.ValueError) /\
  _rate_limit_info
    (process decimal_int any_timestamp fresh_client
       [ok_with_limits; ok_with_bad_limit])
  = Some {| limit := Some 100; remaining := Some 99; reset := None |}.
Proof. repeat split. cbn. discriminate. Qed.

(** C3, amended. After any sequence of responses the snapshot is the one
    built from the headers of a single response, the most recent one that
    has a non-empty value for one of the three headers and whose values all
    convert; it is built from that response alone, whatever the snapshot was
    before; without such a response the snapshot is the initial one. A
    response with none of the three headers leaves the snapshot unchanged, so
    a response with headers followed by one without leaves the snapshot as
    set by the first. *)
Theorem snapshot_is_last_carried :
  forall (py_int : string -> option Z) (fromtimestamp : Z -> builtin + datetime),
    (forall (self : HttpClient) (responses : list Response),
        _rate_limit_info (process py_int fromtimestamp self responses)
        = match find (carries_snapshot py_int fromtimestamp) (rev responses) with
          | Some r => snapshot_of py_int fromtimestamp r
          | None => _rate_limit_info self
          end) /\
    (forall (self : HttpClient) (method path : string) (b : Response),
        has_rate_limit_header b = false ->
        request py_int fromtimestamp self method path (Received b)
        = (fst (request py_int fromtimestamp self method path (Received b)),
           self)) /\
    (forall (self : HttpClient) (a b : Response),
        carries_snapshot py_int fromtimestamp a = true ->
        has_rate_limit_header b = false ->
        _rate_limit_info (process py_int fromtimestamp self [a; b])
        = snapshot_of py_int fromtimestamp a /\
        _rate_limit_info (process py_int fromtimestamp self [a; b])
        = _rate_limit_info (process py_int fromtimestamp self [a])).
Proof.
  intros py_int fromtimestamp. split; [|split].
  - apply process_snapshot.
  - intros self method path b Hb.
    rewrite (surjective_pairing (request _ _ self method path (Received b))) at 1.
    f_equal. rewrite request_state.
    apply update_not_carries. now apply no_header_no_value.
  - intros self a b Ha Hb.
    rewrite !process_snapshot. cbn [rev app find].
    rewrite (no_header_no_value _ _ _ Hb), Ha. split; reflexivity.
Qed.

Lemma snapshot_is_last_carried_witness :
  _rate_limit_info
    (process decimal_int any_timestamp fresh_client
       [ok_with_limits; ok_without_limits])
  = Some {| limit := Some 100; remaining := Some 99; reset := None |}.
Proof.
  destruct (snapshot_is_last_carried decimal_int any_timestamp) as (_ & _ & H).
  destruct (H fresh_client ok_with_limits ok_without_limits) as [Hs _];
    [reflexivity | reflexivity |].
  rewrite Hs. reflexivity.
Defined.

(** C8. When the underlying request fails before a response exists,
    [request] raises [NetworkError] with the failure as its cause and
    returns the client untouched; and whenever a call of [request] changes
    the snapshot, a response had been received. *)
Theorem network_failure_leaves_snapshot :
  forall (py_int : string -> option Z) (fromtimestamp : Z -> builtin + datetime)
         (self : HttpClient) (method path : string),
    (forall e : RequestError,
        request py_int fromtimestamp self method path (Failed e)
        = (Raise (NetworkError (VStr ("Network error: " ++ error_text e))
                               (Some e)),
           self)) /\
    (forall answer : exchange,
        _rate_limit_info
          (snd (request py_int fromtimestamp self method path answer))
        <> _rate_limit_info self ->
        exists response, answer = Received response).
Proof.
  intros py_int fromtimestamp self method path. split.
  - reflexivity.
  - intros [response|e] H.
    + now exists response.
    + now elim H.
Qed.

Lemma network_failure_leaves_snapshot_witness :
  exists response, Received ok_with_limits = Received response.
Proof.
  apply (proj2 (network_failure_leaves_snapshot decimal_int any_timestamp
                  fresh_client "GET" "/api/v1/domains")).
  cbn. discriminate.
Defined.

(** C10. When a DELETE request succeeds, [delete] returns the empty dict
    if the response body is empty, whether or not the body would parse, and
    otherwise what [response.json()] gives. *)
Theorem delete_returns_empty_dict_for_empty_body :
  forall (py_int : string -> option Z) (fromtimestamp : Z -> builtin + datetime)
         (self self' : HttpClient) (path : string) (answer : exchange)
         (response : Response),
    request py_int fromtimestamp self "DELETE" path answer
    = (Return response, self') ->
    (content response = "" ->
     delete py_int fromtimestamp self path answer = (Return (VDict []), self')) /\
    (content response <> "" ->
     delete py_int fromtimestamp self path answer
     = (response_json response, self') /\
     forall v, json response = Some v ->
               delete py_int fromtimestamp self path answer = (Return v, self')).
Proof.
  intros py_int fromtimestamp self self' path answer response H.
  unfold delete. rewrite H. split.
  - intros ->. reflexivity.
  - intros Hne. unfold str_truthy.
    destruct (String.eqb_spec (content response) ""); [contradiction|].
    cbn [negb]. split; [reflexivity|].
    intros v Hv. unfold response_json. now rewrite Hv.
Qed.

Lemma delete_returns_empty_dict_for_empty_body_witness :
  delete decimal_int any_timestamp fresh_client "/api/v1/contacts/7"
    (Received no_content)
  = (Return (VDict []), fresh_client) /\
  delete decimal_int any_timestamp fresh_client "/api/v1/contacts/7"
    (Received deleted_body)
  = (Return (VDict [("deleted", VBool true)]), fresh_client).
Proof.
  split.
  - destruct (delete_returns_empty_dict_for_empty_body decimal_int any_timestamp
                fresh_client "/api/v1/contacts/7" (Received no_content)
                (self' := fresh_client) (response := no_content) eq_refl)
      as [Hempty _].
    apply Hempty. reflexivity.
  - destruct (delete_returns_empty_dict_for_empty_body decimal_int any_timestamp
                fresh_client "/api/v1/contacts/7" (Received deleted_body)
                (self' := fresh_client) (response := deleted_body) eq_refl)
      as [_ Hbody].
    destruct Hbody as [_ Hparsed]; [discriminate|].
    apply Hparsed. reflexivity.
Defined.

(** C4 fails on the code: the 429 branch raises builtin exceptions where
    the claim promises a [QuotaExceededError] or a [RateLimitError]. A 429
    whose body nests the error in an object makes [error_message.lower()]
    raise [AttributeError], and a 429 whose [Retry-After] header is an HTTP
    date makes [int()] raise [ValueError]; either exception leaves [request]
    as it is and is not retried. The 5xx branch classifies the same nested
    body, with the object as message. *)
Theorem throttled_responses_outside_the_taxonomy :
  status_code throttled_nested_error = 429 /\
  _handle_error_response decimal_int throttled_nested_error
  = Raise (Builtin AttributeError) /\
  request decimal_int any_timestamp fresh_client "GET" "/api/v1/domains"
    (Received throttled_nested_error)
  = (Raise (Builtin AttributeError), fresh_client) /\
  _handle_error_response decimal_int
    {| status_code := 503;
       headers := headers throttled_nested_error;
       content := content throttled_nested_error;
       text := text throttled_nested_error;
       json := json throttled_nested_error |}
  = Raise (ServerError (VDict [("code", VStr "rate_limited");
                               ("message", VStr "Too many requests")]) 503) /\
  status_code throttled_http_date = 429 /\
  snd (error_body throttled_http_date) = VStr "Too many requests" /\
  headers throttled_http_date "retry-after"
  = Some "Wed, 21 Oct 2015 07:28:00 GMT" /\
  _handle_error_response decimal_int throttled_http_date
  = Raise (Builtin Py.ValueError) /\
  request decimal_int any_timestamp fresh_client "GET" "/api/v1/domains"
    (Received throttled_http_date)
  = (Raise (Builtin Py.ValueError), fresh_client) /\
  retried_types (Builtin AttributeError) = false /\
  retried_types (Builtin Py.ValueError) = false.
Proof. repeat split. Qed.

(** What does hold of a 429 response whose extracted error message is a
    string: classification yields [QuotaExceededError] exactly when the
    message contains "quota" case-insensitively; otherwise it yields
    [RateLimitError] with [retry_after = None] when the [retry-after] header
    is absent or empty, and with [retry_after = n] when the header value is
    not empty and [int()] converts it to [n]. A [QuotaExceededError] is never
    retried: the caller receives it after a single call. *)
Lemma quota_versus_rate_limit :
  (forall (py_int : string -> option Z) (response : Response) (m : string),
      status_code response = 429 ->
      snd (error_body response) = VStr m ->
      ((exists message quota_limit quota_used,
           _handle_error_response py_int response
           = Raise (QuotaExceededError message quota_limit quota_used))
       <-> contains_ignoring_case "quota" m) /\
      (contains_ignoring_case "quota" m ->
       _handle_error_response py_int response
       = Raise (QuotaExceededError (VStr m) None None)) /\
      (~ contains_ignoring_case "quota" m ->
       (headers response "retry-after" = None \/
        headers response "retry-after" = Some "" ->
        _handle_error_response py_int response
        = Raise (RateLimitError (VStr m) None)) /\
       (forall s n,
           headers response "retry-after" = Some s -> s <> "" ->
           py_int s = Some n ->
           _handle_error_response py_int response
           = Raise (RateLimitError (VStr m) (Some n))))) /\
  (forall (float : Type) (ops : FloatOps float) (W T : Type)
          (func : callable W T) (c : RetryConfig float) (w w' : W)
          (message : value) (quota_limit quota_used : option Z),
      body_of func w
      = (Raise (QuotaExceededError message quota_limit quota_used), w') ->
      with_retry func c w
      = Some (finish (Raise (QuotaExceededError message quota_limit quota_used))
                     1 w')).
Proof.
  split.
  - intros py_int response m H429 Hm.
    pose proof (classify_429 py_int response H429 Hm) as Hc.
    assert (Hin : py_in "quota" (lower m) = true
                  <-> contains_ignoring_case "quota" m)
      by apply py_in_has_substring.
    destruct (py_in "quota" (lower m)) eqn:E.
    + assert (Hq : contains_ignoring_case "quota" m) by now apply Hin.
      split; [|split].
      * split; [intros _; exact Hq | intros _; eauto].
      * intros _. exact Hc.
      * intros Hn. contradiction.
    + assert (Hq : ~ contains_ignoring_case "quota" m).
      { intros Hq. apply Hin in Hq. discriminate. }
      split; [|split].
      * split; [|intros Hq'; contradiction].
        intros (message & ql & qu & Hx). rewrite Hc in Hx.
        destruct (int_if_present py_int (headers response "retry-after")) eqn:Ei.
        -- discriminate.
        -- apply int_if_present_raises in Ei. subst. discriminate.
      * intros Hq'. contradiction.
      * intros _. split.
        -- intros [Hh|Hh]; rewrite Hc, Hh; reflexivity.
        -- intros s n Hh Hs Hn. rewrite Hc, Hh. cbn. unfold str_truthy.
           destruct (String.eqb_spec s ""); [contradiction|].
           cbn. now rewrite Hn.
  - intros float ops W T func c w w' message ql qu Hb.
    now apply with_retry_not_retried.
Qed.

Example quota_versus_rate_limit_examples :
  _handle_error_response decimal_int over_quota
  = Raise (QuotaExceededError (VStr "Monthly Quota exceeded") None None) /\
  _handle_error_response decimal_int throttled
  = Raise (RateLimitError (VStr "Too many requests") (Some 30)) /\
  with_retry (AsyncDef (always_raises
                          (QuotaExceededError (VStr "Quota exceeded") None None)))
             five_attempts 0%nat
  = Some (finish (Raise (QuotaExceededError (VStr "Quota exceeded") None None))
                 1 1%nat).
Proof. repeat split. Qed.

(** C6 fails on the code for status 400: when the body is not JSON,
    [error_data] is never assigned and the 400 branch raises
    [UnboundLocalError] instead of a [ValidationError]; that exception
    leaves [request] as it is. *)
Theorem bad_request_without_json_body :
  forall (py_int : string -> option Z) (fromtimestamp : Z -> builtin + datetime),
    status_code bad_request_plain = 400 /\
    json bad_request_plain = None /\
    _handle_error_response py_int bad_request_plain
    = Raise (Builtin UnboundLocalError) /\
    request py_int fromtimestamp fresh_client "POST" "/api/v1/emails/send"
      (Received bad_request_plain)
    = (Raise (Builtin UnboundLocalError), fresh_client).
Proof. intros. repeat split. Qed.

(** What does hold of the four client-error statuses: 401, 403 and 404 are
    classified whatever the body is, and 400 whenever [json()] parses the
    body. *)
Lemma client_errors_classified (py_int : string -> option Z) (r : Response) :
  (status_code r = 401 -> exists message,
      _handle_error_response py_int r = Raise (AuthenticationError message)) /\
  (status_code r = 403 -> exists message,
      _handle_error_response py_int r = Raise (ScopeError message)) /\
  (status_code r = 404 -> exists message,
      _handle_error_response py_int r = Raise (NotFoundError message)) /\
  (status_code r = 400 -> json r <> None -> exists message errors,
      _handle_error_response py_int r = Raise (ValidationError message errors)).
Proof.
  repeat split; intros H.
  - eexists. now apply classify_401.
  - eexists. now apply classify_403.
  - eexists. now apply classify_404.
  - intros Hj. destruct (json r) as [data|] eqn:E; [|contradiction].
    eexists _, _. rewrite (classify_400_parsed py_int r H E). reflexivity.
Qed.

(** Each of the four kinds reaches the caller after one call, unchanged. *)
Lemma client_errors_not_retried (float : Type) (ops : FloatOps float)
    (W T : Type) (func : callable W T) (c : RetryConfig float) (w w' : W)
    (e : exn) :
  match e with
  | AuthenticationError _ | ScopeError _ | ValidationError _ _
  | NotFoundError _ => True
  | _ => False
  end ->
  body_of func w = (Raise e, w') ->
  with_retry func c w = Some (finish (Raise e) 1 w').
Proof.
  intros He Hb. apply with_retry_not_retried; [exact Hb|].
  destruct e; try contradiction; reflexivity.
Qed.




(** C7, as stated, fails: a key with the prefix "nr_live_" followed by a
    character outside ASCII passes both checks of the constructor, and
    construction then fails with [UnicodeEncodeError] when
    [httpx.AsyncClient] encodes the [Authorization] header. *)
Lemma accented_key_is_refused_by_httpx :
  recognized_prefix accented_key /\
  is_ascii accented_key = false /\
  default_url_only "https://app.northrelay.ca" = true /\
  (NorthRelay_default default_url_only accented_key : construction Q)
  = UnicodeEncodeError /\
  forall client : NorthRelay Q,
    NorthRelay_default default_url_only accented_key <> Built client.
Proof.
  split; [left; eexists; reflexivity|].
  repeat split. intros client. discriminate.
Qed.

(** C7, amended. A key that starts with neither "nr_live_" nor "nr_test_"
    (the empty key included) makes the constructor raise [ValueError] with
    one of its two explanatory messages, whatever httpx would accept: the
    transport, the only object that reaches the network, is never built. A
    key with one of the two prefixes that is ASCII, with a base URL httpx
    accepts, yields a client holding that key and no snapshot; a key with
    one of the prefixes that is not ASCII never yields a client. In
    particular "invalid_key" and the empty key are refused, "nr_live_x" and
    "nr_test_x" accepted. *)
Theorem credential_prefix_is_checked :
  (forall (float : Type) (ops : FloatOps float) (url_accepted : string -> bool)
          (api_key base_url : string) (timeout : Q) (max_retries : Z)
          (retry_delay max_retry_delay : float),
      (~ recognized_prefix api_key ->
       exists message,
         NorthRelay_init url_accepted api_key base_url timeout max_retries
           retry_delay max_retry_delay
         = ValueError message /\
         (message = key_required_message \/ message = key_format_message) /\
         message <> "") /\
      (recognized_prefix api_key ->
       is_ascii api_key = true ->
       url_accepted (rstrip "/" base_url) = true ->
       exists client,
         NorthRelay_init url_accepted api_key base_url timeout max_retries
           retry_delay max_retry_delay
         = Built client /\
         Http.api_key (_http client) = api_key /\
         Http.base_url (_http client) = rstrip "/" base_url /\
         _rate_limit_info (_http client) = None /\
         max_attempts (_retry_config client) = max_retries /\
         map fst (resources client) = resource_names) /\
      (recognized_prefix api_key ->
       is_ascii api_key = false ->
       forall client,
         NorthRelay_init url_accepted api_key base_url timeout max_retries
           retry_delay max_retry_delay
         <> Built client)) /\
  (NorthRelay_default default_url_only "invalid_key" : construction Q)
  = ValueError key_format_message /\
  (NorthRelay_default default_url_only "" : construction Q)
  = ValueError key_required_message /\
  (exists client : NorthRelay Q,
      NorthRelay_default default_url_only "nr_live_x" = Built client) /\
  (exists client : NorthRelay Q,
      NorthRelay_default default_url_only "nr_test_x" = Built client).
Proof.
  split; [|repeat split; eexists; reflexivity].
  intros float ops url_accepted api_key base_url timeout max_retries
         retry_delay max_retry_delay.
  unfold NorthRelay_init, startswith, recognized_prefix.
  pose proof (prefix_has_prefix "nr_live_" api_key) as Hlive.
  pose proof (prefix_has_prefix "nr_test_" api_key) as Htest.
  assert (Hascii : is_ascii ("Bearer " ++ api_key) = is_ascii api_key)
    by reflexivity.
  assert (Hnew : (HttpClient_new url_accepted base_url api_key timeout
                  : construction float + HttpClient)
                 = if negb (url_accepted (rstrip "/" base_url))
                   then inl InvalidURL
                   else if negb (is_ascii api_key)
                   then inl UnicodeEncodeError
                   else inr (HttpClient_init base_url api_key timeout)).
  { unfold HttpClient_new, AsyncClient_init.
    cbn [forallb snd Http.base_url HttpClient_init]. rewrite Hascii.
    change (is_ascii "application/json") with true.
    change (is_ascii "northrelay-python/1.1.0") with true.
    rewrite !andb_true_r.
    destruct (url_accepted (rstrip "/" base_url)); [|reflexivity].
    now destruct (is_ascii api_key). }
  destruct (String.prefix "nr_live_" api_key) eqn:El;
    destruct (String.prefix "nr_test_" api_key) eqn:Et; cbn [orb negb].
  1-3: assert (Hne : str_truthy api_key = true)
      by (destruct api_key; [discriminate | reflexivity]);
    rewrite Hne, Hnew; cbn [negb]; split; [|split];
    [ intros Hn; elim Hn; first [left; now apply Hlive | right; now apply Htest]
    | intros _ Ha Hu; rewrite Hu, Ha; cbn [negb];
      eexists; repeat split; cbn; now rewrite map_map, map_id
    | intros _ Ha client; rewrite Ha; cbn [negb];
      destruct (url_accepted (rstrip "/" base_url)); discriminate ].
  assert (Hno : ~ (has_prefix "nr_live_" api_key \/ has_prefix "nr_test_" api_key)).
  { intros [Hp|Hp]; [apply Hlive in Hp | apply Htest in Hp]; discriminate. }
  destruct (str_truthy api_key); cbn [negb]; split; [|split| |split].
  - intros _. exists key_format_message. repeat split; [now right | discriminate].
  - intros Hp. contradiction.
  - intros Hp. contradiction.
  - intros _. exists key_required_message. repeat split; [now left | discriminate].
  - intros Hp. contradiction.
  - intros Hp. contradiction.
Qed.

Lemma credential_prefix_is_checked_witness :
  (exists message,
      (NorthRelay_default default_url_only "sk_live_123" : construction Q)
      = ValueError message) /\
  (exists client : NorthRelay Q,
      NorthRelay_default default_url_only "nr_test_123" = Built client /\
      Http.api_key (_http client) = "nr_test_123").
Proof.
  destruct credential_prefix_is_checked as [Hall _].
  split.
  - destruct (Hall Q exact default_url_only "sk_live_123"
                "https://app.northrelay.ca" 30%Q 3 1%Q 10%Q) as [Hbad _].
    destruct Hbad as (message & Hm & _).
    + intros [[rest Hr]|[rest Hr]]; discriminate.
    + exists message. exact Hm.
  - destruct (Hall Q exact default_url_only "nr_test_123"
                "https://app.northrelay.ca" 30%Q 3 1%Q 10%Q) as (_ & Hgood & _).
    destruct Hgood as (client & Hc & Hk & _).
    + right. exists "123". reflexivity.
    + reflexivity.
    + reflexivity.
    + exists client. split; [exact Hc | exact Hk].
Defined.

(** A success on the second of three attempts is returned at once: no third
    call is made. *)
Example success_on_second_attempt :
  with_retry (AsyncDef (fails_then_returns 1 connection_reset (VDict [])))
             (DEFAULT_RETRY_CONFIG : RetryConfig Q) 0%nat
  = Some {| outcome := Return (VDict []);
            attempts := 2;
            trace := [Call 1; Sleep 1%Q; Call 2];
            final := 2%nat |}.
Proof. reflexivity. Qed.

End Properties.

(* ------------------------------------------------------------------ *)
(** ** Further properties of the retry loop and of [with_retry] *)

Module InvokerProperties.
Import Py Floats Exceptions Tenacity Retry Scenarios.
Import TenacityFacts RetryFacts.

Section Loop.
Variables W T float : Type.
Variable max_attempt_number : Z.
Variable wait : Z -> float.
Variable retry : exn -> bool.
Variable fn : W -> result T * W.

Local Notation loop :=
  (iterate (stop_after_attempt max_attempt_number) wait retry true fn).

(** Whatever a run ends with is what its last call produced, and every
    call before the last raised an exception the predicate accepts. *)
Lemma iterate_last fuel :
  forall n w r,
    loop fuel n w = Some r ->
    (outcome r, final r) = fn (state_after fn (Z.to_nat (attempts r - n)) w) /\
    forall j, (j < Z.to_nat (attempts r - n))%nat ->
              exists e, fst (fn (state_after fn j w)) = Raise e /\ retry e = true.
Proof.
  induction fuel as [|fuel IH]; intros n w r; [discriminate|].
  cbn [iterate]. destruct (fn w) as [[v|e] w'] eqn:Hw.
  - intros [= <-]. cbn. rewrite Z.sub_diag. cbn. split; [now rewrite Hw|lia].
  - destruct (retry e) eqn:He; cbn [negb].
    2:{ intros [= <-]. cbn. rewrite Z.sub_diag. cbn. split; [now rewrite Hw|lia]. }
    destruct (stop_after_attempt max_attempt_number n).
    { intros [= <-]. cbn. rewrite Z.sub_diag. cbn. split; [now rewrite Hw|lia]. }
    destruct (loop fuel (n + 1) w') as [r'|] eqn:Hr'; [|discriminate].
    intros [= <-]. destruct (IH _ _ _ Hr') as [Hout Hearlier].
    destruct (iterate_trace _ _ _ _ _ _ _ Hr') as [Hle _].
    cbn [after attempts outcome final].
    replace (Z.to_nat (attempts r' - n))
      with (S (Z.to_nat (attempts r' - (n + 1)))) by lia.
    assert (Hw' : w' = snd (fn w)) by now rewrite Hw.
    split.
    + rewrite <- state_after_shift, <- Hw'. exact Hout.
    + intros [|j] Hj.
      * exists e. cbn. now rewrite Hw.
      * rewrite <- state_after_shift, <- Hw'. apply Hearlier. lia.
Qed.

(** The run ends at the first call that returns or raises what the
    predicate rejects, provided the stop condition has not been met
    before. *)
Lemma iterate_stops_at (j : nat) :
  forall fuel n w,
    (j < fuel)%nat ->
    (j <> O -> n + Z.of_nat j <= max_attempt_number) ->
    (forall i, (i < j)%nat ->
               exists e, fst (fn (state_after fn i w)) = Raise e /\ retry e = true) ->
    Verbs.stops retry (fst (fn (state_after fn j w))) = true ->
    loop fuel n w
    = Some {| outcome := fst (fn (state_after fn j w));
              attempts := n + Z.of_nat j;
              trace := schedule wait n j;
              final := snd (fn (state_after fn j w)) |}.
Proof.
  induction j as [|j IH]; intros fuel n w Hfuel Hmax Hearlier Hstop.
  - destruct fuel as [|fuel]; [lia|].
    change (state_after fn 0 w) with w in *. cbn [iterate schedule].
    rewrite Z.add_0_r.
    destruct (fn w) as [[v|e] w']; cbn in *; [reflexivity|].
    now rewrite Hstop.
  - destruct fuel as [|fuel]; [lia|]. cbn [iterate].
    destruct (Hearlier O ltac:(lia)) as (e & He & Hretry).
    change (state_after fn 0 w) with w in He.
    destruct (fn w) as [o w'] eqn:Hw. cbn in He. subst o.
    rewrite Hretry. cbn [negb].
    assert (Hns : stop_after_attempt max_attempt_number n = false)
      by (apply stop_after_attempt_false; lia).
    rewrite Hns.
    assert (Hw' : w' = snd (fn w)) by now rewrite Hw.
    rewrite (IH fuel (n + 1) w').
    + rewrite <- !state_after_shift, <- Hw'.
      unfold after. cbn [option_map outcome attempts trace final app schedule].
      do 2 f_equal. lia.
    + lia.
    + intros _. lia.
    + intros i Hi. rewrite Hw', state_after_shift. apply Hearlier. lia.
    + rewrite Hw', state_after_shift. exact Hstop.
Qed.

End Loop.

Section Invoker.
Context {float : Type} `{FloatOps float}.
Variables W T : Type.
Variable c : RetryConfig float.

(** What [with_retry] hands to its caller is exactly what the last call of
    the operation produced, value or exception, never a wrapper; and every
    call before the last raised a [NetworkError], a [ServerError] or a
    [RateLimitError]. *)
Theorem with_retry_propagates_last_outcome (func : callable W T) (w : W) :
  exists r,
    with_retry func c w = Some r /\
    (outcome r, final r)
    = body_of func (state_after (body_of func) (Z.to_nat (attempts r - 1)) w) /\
    forall j, (j < Z.to_nat (attempts r - 1))%nat ->
              exists e, fst (body_of func (state_after (body_of func) j w))
                        = Raise e /\
                        retried_types e = true.
Proof.
  destruct (with_retry_returns func c w) as [r Hr].
  exists r. split; [exact Hr|].
  unfold with_retry, create_retry_decorator in Hr.
  destruct func as [body|body]; cbn [body_of].
  - exact (iterate_last _ _ _ _ _ _ _ Hr).
  - destruct (body w) as [out w'] eqn:Hb. injection Hr as <-. cbn.
    split; [now rewrite Hb | lia].
Qed.


(** Short circuit, for an operation written as an [async def]. When the
    first [j] calls raise retried exceptions, the next call returns or
    raises anything else, and fewer than [max_attempts] calls came before
    it, [with_retry] stops there: [j + 1] calls, between them the sleeps the
    wait strategy computes after attempts 1 to [j], and that call's outcome,
    unchanged. *)
Theorem with_retry_stops_at_first_final_outcome
    (body : W -> result T * W) (w : W) (j : nat) :
  Z.of_nat j < Z.max 1 (max_attempts c) ->
  (forall i, (i < j)%nat ->
             exists e, fst (body (state_after body i w)) = Raise e /\
                       retried_types e = true) ->
  Verbs.stops retried_types (fst (body (state_after body j w))) = true ->
  with_retry (AsyncDef body) c w
  = Some {| outcome := fst (body (state_after body j w));
            attempts := 1 + Z.of_nat j;
            trace := schedule (backoff c) 1 j;
            final := snd (body (state_after body j w)) |}.
Proof.
  intros Hj Hearlier Hstop.
  unfold with_retry, create_retry_decorator.
  apply iterate_stops_at; try assumption; lia.
Qed.

(** Every sleep of a run is [max_delay] itself (what the wait strategy
    returns when the power overflows, negative or not), or 0, or a value
    above 0 and not above [max_delay]. *)
Theorem sleeps_within_bounds (func : callable W T) (w : W) :
  exists r,
    with_retry func c w = Some r /\
    Forall (fun d => d = max_delay c \/ d = float_of 0 \/
                     (float_lt (float_of 0) d = true /\
                      float_lt (max_delay c) d = false))
           (sleeps (trace r)).
Proof.
  destruct (with_retry_returns func c w) as [r Hr].
  exists r. split; [exact Hr|].
  destruct (with_retry_trace _ _ _ Hr) as [_ Htr].
  rewrite Htr, sleeps_schedule. apply Forall_forall.
  intros d Hd. apply in_map_iff in Hd. destruct Hd as (i & <- & _).
  generalize (1 + Z.of_nat i) as n. intros n.
  unfold backoff, wait_exponential.
  destruct (float_pow (exponential_base c) (n - 1)) as [exp|]; [|now left].
  assert (Hzero : py_max (float_of 0) (float_of 0) = float_of 0)
    by (unfold py_max; now destruct (float_lt (float_of 0) (float_of 0))).
  rewrite Hzero.
  set (x := py_min (float_mul (initial_delay c) exp) (max_delay c)).
  unfold py_max. destruct (float_lt (float_of 0) x) eqn:Hpos;
    [|right; now left].
  subst x. unfold py_min in *.
  destruct (float_lt (max_delay c) (float_mul (initial_delay c) exp)) eqn:Hcap;
    [now left|].
  right. right. split; assumption.
Qed.

End Invoker.

Lemma with_retry_stops_at_first_final_outcome_witness :
  with_retry (AsyncDef (fails_then_returns 2 connection_reset (VDict [])))
             five_attempts 0%nat
  = Some {| outcome := Return (VDict []);
            attempts := 3;
            trace := [Call 1; Sleep 1%Q; Call 2; Sleep 2%Q; Call 3];
            final := 3%nat |}.
Proof.
  rewrite (with_retry_stops_at_first_final_outcome five_attempts
             (fails_then_returns 2 connection_reset (VDict []))
             0%nat (j := 2)).
  - reflexivity.
  - cbn. lia.
  - intros [|[|i]] Hi; [eexists; split; reflexivity ..|lia].
  - reflexivity.
Defined.

(** A sleep can be negative: when the power overflows, [max_delay] is
    returned as it is. *)
Example overflow_returns_max_delay :
  float_pow (FloatOps := ranged) (exponential_base overflowing) 2 = None /\
  option_map (fun r => sleeps (trace r))
    (@with_retry Q ranged nat value
       (AsyncDef (always_raises connection_reset)) overflowing 0%nat)
  = Some [0; 0; -1]%Q.
Proof. split; vm_compute; reflexivity. Qed.

(** [is_retryable_error] and the predicate the decorator really uses agree
    on every exception except a [RateLimitError] without [retry_after],
    which only the decorator retries. *)
Theorem retry_predicates_differ_only_on_rate_limit (e : exn) :
  (is_retryable_error e = true -> retried_types e = true) /\
  (is_retryable_error e <> retried_types e <->
   exists message, e = RateLimitError message None).
Proof.
  split.
  - destruct e; cbn; try discriminate; reflexivity.
  - split.
    + destruct e as [| | | |m [n|]| | | | | |]; cbn; intros H;
        try (now elim H). now exists m.
    + intros [m ->]. cbn. discriminate.
Qed.

End InvokerProperties.

(* ------------------------------------------------------------------ *)
(** ** Further properties of the transport *)

Module TransportProperties.
Import Py Httpx Exceptions Http Verbs Retry Scenarios.
Import PyFacts TransportFacts ClassificationFacts.

Section Transport.
Variable py_int : string -> option Z.
Variable fromtimestamp : Z -> builtin + datetime.

Local Notation _update_rate_limit := (_update_rate_limit py_int fromtimestamp).
Local Notation request := (request py_int fromtimestamp).
Local Notation snapshot_of := (snapshot_of py_int fromtimestamp).
Local Notation carries_snapshot := (carries_snapshot py_int fromtimestamp).
Local Notation classify := (_handle_error_response py_int).

(** Every response that is not a success makes the handler raise. *)
Lemma classify_raises (r : Response) :
  is_success r = false -> exists e, classify r = Raise e.
Proof.
  intros Hs. unfold _handle_error_response, raise_for_status.
  destruct (error_body r) as [data msg]. rewrite Hs.
  repeat match goal with
         | |- context [if ?b then _ else _] => destruct b
         | |- context [match ?x with _ => _ end] => destruct x
         end; eexists; reflexivity.
Qed.

Lemma datetime_if_present_raises (h : option string) (e : exn) :
  datetime_if_present py_int fromtimestamp h = Raise e -> exists b, e = Builtin b.
Proof.
  unfold datetime_if_present.
  destruct (int_if_present py_int h) as [[n|]|e'] eqn:E.
  - destruct (fromtimestamp n); [|discriminate]. intros [= <-]. eauto.
  - discriminate.
  - intros [= <-]. apply int_if_present_raises in E. eauto.
Qed.

Lemma update_without_value (self : HttpClient) (r : Response) :
  has_rate_limit_value r = false ->
  _update_rate_limit self r = (Return tt, self).
Proof.
  unfold Http._update_rate_limit, has_rate_limit_value. now intros ->.
Qed.

(** [request] never hands back a response with a 4xx or 5xx status: when it
    returns, a response was received and its status is outside 400..599. *)
Theorem request_never_returns_an_error_response
    (self self' : HttpClient) (method path : string) (answer : exchange)
    (response : Response) :
  request self method path answer = (Return response, self') ->
  answer = Received response /\
  ~ (400 <= status_code response <= 599).
Proof.
  destruct answer as [r|e]; cbn [Http.request]; [|discriminate].
  destruct (_update_rate_limit self r) as [[[]|e] s]; [|discriminate].
  destruct (is_success r) eqn:Hs; cbn [negb].
  - intros [= <- _]. split; [reflexivity|].
    unfold is_success in Hs. apply andb_true_iff in Hs. lia.
  - destruct (classify_raises r Hs) as [e He]. rewrite He. discriminate.
Qed.

(** The [status_code] attribute of every SDK exception built by the
    handler is the status of the response it was built from. *)
Theorem classified_status_matches_response (r : Response) (e : exn) :
  classify r = Raise e -> is_sdk_error e = true ->
  status_code_of e = Some (status_code r).
Proof.
  unfold _handle_error_response, raise_for_status, ValidationError_init,
    QuotaExceededError_init.
  destruct (error_body r) as [data msg].
  destruct (Z.eqb_spec (status_code r) 401) as [->|];
    [intros [= <-]; reflexivity|].
  destruct (Z.eqb_spec (status_code r) 403) as [->|];
    [intros [= <-]; reflexivity|].
  destruct (Z.eqb_spec (status_code r) 400) as [->|].
  { destruct data as [[]|]; intros [= <-]; try reflexivity; discriminate. }
  destruct (Z.eqb_spec (status_code r) 404) as [->|];
    [intros [= <-]; reflexivity|].
  destruct (Z.eqb_spec (status_code r) 429) as [->|].
  { destruct msg; try (intros [= <-]; discriminate).
    destruct (py_in "quota" (lower s)); [intros [= <-]; reflexivity|].
    destruct (int_if_present py_int (headers r "retry-after")) eqn:E.
    - intros [= <-]. reflexivity.
    - apply int_if_present_raises in E. subst. intros [= <-]. discriminate. }
  destruct ((500 <=? status_code r) && (status_code r <? 600));
    [intros [= <-]; reflexivity|].
  destruct (is_success r); [discriminate|]. intros [= <-]. discriminate.
Qed.

(** The snapshot is recorded before the status is looked at: an error
    response that carries rate-limit values makes [request] raise and
    replaces the snapshot all the same. *)
Theorem error_responses_update_snapshot
    (self : HttpClient) (method path : string) (r : Response) :
  carries_snapshot r = true -> is_success r = false ->
  exists e,
    request self method path (Received r)
    = (Raise e, set_rate_limit_info self (snapshot_of r)) /\
    classify r = Raise e.
Proof.
  intros Hc Hs. destruct (classify_raises r Hs) as [e He].
  exists e. split; [|exact He].
  cbn [Http.request]. rewrite (update_carries _ _ _ _ Hc), Hs, He. reflexivity.
Qed.

(** A rate-limit header that does not convert hides the response: whatever
    its status and body, [request] raises the conversion's exception and
    leaves the client as it was. *)
Theorem malformed_rate_limit_header_masks_response
    (self : HttpClient) (method path : string) (r : Response) :
  has_rate_limit_value r = true -> snapshot_of r = None ->
  exists b,
    request self method path (Received r) = (Raise (Builtin b), self) /\
    retried_types (Builtin b) = false /\
    is_retryable_error (Builtin b) = false.
Proof.
  unfold has_rate_limit_value, Http.snapshot_of. intros Hv Hs.
  cbn [Http.request]. unfold Http._update_rate_limit. rewrite Hv.
  destruct (int_if_present py_int (headers r "x-ratelimit-limit")) eqn:E1.
  2:{ apply int_if_present_raises in E1. subst. eexists. repeat split. }
  destruct (int_if_present py_int (headers r "x-ratelimit-remaining")) eqn:E2.
  2:{ apply int_if_present_raises in E2. subst. eexists. repeat split. }
  destruct (datetime_if_present py_int fromtimestamp
              (headers r "x-ratelimit-reset")) eqn:E3; [discriminate|].
  apply datetime_if_present_raises in E3. destruct E3 as [b ->].
  exists b. repeat split.
Qed.

Lemma serve_is_process (self : HttpClient) (answers : list exchange) :
  serve py_int fromtimestamp self answers
  = process py_int fromtimestamp self (received answers).
Proof.
  unfold process. revert self.
  induction answers as [|[r|e] rest IH]; intros self; [reflexivity| |].
  - cbn [received map serve]. apply IH.
  - cbn [received serve Http.request snd]. apply IH.
Qed.

(** Once the client holds a snapshot it holds one for ever: no sequence of
    responses and failed requests brings [get_rate_limit_info] back to
    [None]. *)
Theorem snapshot_never_disappears (self : HttpClient) (answers : list exchange) :
  get_rate_limit_info self <> None ->
  get_rate_limit_info (serve py_int fromtimestamp self answers) <> None.
Proof.
  unfold get_rate_limit_info. intros H.
  rewrite serve_is_process, process_snapshot.
  destruct (find carries_snapshot (rev (received answers))) as [r|] eqn:E;
    [|exact H].
  apply find_some in E. destruct E as [_ E].
  unfold Http.carries_snapshot in E. apply andb_true_iff in E.
  destruct E as [_ E]. destruct (snapshot_of r); [discriminate|discriminate].
Qed.

(** A successful response whose body does not parse: [post], [patch], [put]
    and [get] raise [JSONDecodeError] (the snapshot having been updated),
    where [delete] returns the empty dict for an empty body. *)
Theorem success_without_json_body
    (self self' : HttpClient) (method path : string) (answer : exchange)
    (response : Response) :
  request self method path answer = (Return response, self') ->
  json response = None ->
  send_json py_int fromtimestamp method self path answer
  = (Raise (Builtin JSONDecodeError), self') /\
  get py_int fromtimestamp self path answer
  = (Raise (Builtin JSONDecodeError), self') /\
  (content response = "" ->
   delete py_int fromtimestamp self path answer = (Return (VDict []), self')).
Proof.
  intros Hr Hj. split; [|split].
  - unfold send_json. rewrite Hr. unfold response_json. now rewrite Hj.
  - unfold get.
    change (Http.request py_int fromtimestamp self "GET" path answer)
      with (Http.request py_int fromtimestamp self method path answer).
    rewrite Hr. unfold response_json. now rewrite Hj.
  - intros Hc. unfold delete.
    destruct answer as [r|e]; [|discriminate].
    assert (Hs : Http.request py_int fromtimestamp self "DELETE" path (Received r)
                 = Http.request py_int fromtimestamp self method path (Received r))
      by reflexivity.
    rewrite Hs, Hr, Hc. reflexivity.
Qed.

Lemma dict_get_lookup (d : list (string * value)) (key : string)
    (default : value) :
  dict_get d key default
  = match dict_lookup d key with Some v => v | None => default end.
Proof.
  induction d as [|[k v] d IH]; [reflexivity|].
  cbn [dict_get dict_lookup]. destruct (String.eqb k key); [reflexivity|exact IH].
Qed.

(** Where the error message comes from. For a JSON object: its [message]
    field if it has one (whatever its value), else its [error] field, else
    the raw text. For any other body, parsed or not: the raw text, or
    "HTTP <status> error" when the text is empty; in that case the message
    is a non-empty string. *)
Theorem error_message_fallback (r : Response) :
  (forall d, json r = Some (VDict d) ->
     snd (error_body r)
     = match dict_lookup d "message" with
       | Some v => v
       | None => match dict_lookup d "error" with
                 | Some v => v
                 | None => VStr (text r)
                 end
       end) /\
  ((forall d, json r <> Some (VDict d)) ->
   exists m,
     snd (error_body r) = VStr m /\ m <> "" /\
     (text r <> "" -> m = text r) /\
     (text r = "" -> m = "HTTP " ++ str_of_int (status_code r) ++ " error")).
Proof.
  unfold error_body, fallback_message, str_truthy. split.
  - intros d ->. cbn [snd]. now rewrite !dict_get_lookup.
  - intros Hd.
    assert (Hm : exists m,
               VStr (if negb (text r =? "")%string then text r
                     else "HTTP " ++ str_of_int (status_code r) ++ " error")
               = VStr m /\ m <> "" /\
               (text r <> "" -> m = text r) /\
               (text r = "" ->
                m = "HTTP " ++ str_of_int (status_code r) ++ " error")).
    { destruct (String.eqb_spec (text r) "") as [E|E]; cbn [negb].
      - eexists. split; [reflexivity|]. split; [discriminate|].
        split; [intros H; contradiction | reflexivity].
      - exists (text r). split; [reflexivity|]. split; [exact E|].
        split; [reflexivity | intros H; contradiction]. }
    destruct (json r) as [[| | | | | |d]|]; cbn [snd]; try exact Hm.
    now elim (Hd d).
Qed.

(** A 4xx status the handler has no class for (402, 409, 422, ...) leaves
    it as httpx's [HTTPStatusError] carrying the response, which
    [with_retry] does not retry. *)
Theorem unlisted_client_error_is_http_status_error (r : Response) :
  400 <= status_code r <= 499 ->
  status_code r <> 400 -> status_code r <> 401 -> status_code r <> 403 ->
  status_code r <> 404 -> status_code r <> 429 ->
  classify r = Raise (HTTPStatusError r) /\
  retried_types (HTTPStatusError r) = false.
Proof.
  intros Hr H400 H401 H403 H404 H429. split; [|reflexivity].
  unfold _handle_error_response, raise_for_status, is_success.
  destruct (error_body r) as [data msg].
  status_tests. reflexivity.
Qed.

End Transport.

(** [HttpClient.__init__] stores the base URL without its trailing
    slashes and removes nothing else. *)
Lemma rstrip_spec (c : ascii) (s : string) :
  ends_with c (rstrip c s) = false /\
  exists n, s = rstrip c s ++ replicate n c.
Proof.
  induction s as [|a s [IHe [n IHn]]]; [split; [reflexivity | now exists O]|].
  cbn [rstrip]. destruct (rstrip c s) as [|b t] eqn:E.
  - destruct (Ascii.eqb_spec a c) as [->|Hne].
    + split; [reflexivity|]. exists (S n). cbn. now rewrite IHn at 1.
    + split; [cbn; now apply Ascii.eqb_neq|].
      exists n. cbn. now rewrite IHn at 1.
  - split; [exact IHe|]. exists n. cbn. now rewrite IHn at 1.
Qed.

Theorem base_url_has_no_trailing_slash (base_url api_key : string) (timeout : Q) :
  ends_with "/" (Http.base_url (HttpClient_init base_url api_key timeout))
  = false /\
  exists n,
    base_url
    = Http.base_url (HttpClient_init base_url api_key timeout)
      ++ replicate n "/".
Proof. cbn. apply rstrip_spec. Qed.

Lemma request_never_returns_an_error_response_witness :
  Received ok_with_limits = Received ok_with_limits /\
  ~ (400 <= status_code ok_with_limits <= 599).
Proof.
  apply (@request_never_returns_an_error_response decimal_int any_timestamp
           fresh_client
           (set_rate_limit_info fresh_client
              (Some {| limit := Some 100; remaining := Some 99; reset := None |}))
           "GET" "/api/v1/domains" (Received ok_with_limits) ok_with_limits).
  reflexivity.
Defined.

Lemma classified_status_matches_response_witness :
  status_code_of (RateLimitError (VStr "Too many requests") (Some 30))
  = Some (status_code Services.throttled_with_limits).
Proof.
  apply (@classified_status_matches_response decimal_int
           Services.throttled_with_limits); reflexivity.
Defined.

Lemma error_responses_update_snapshot_witness :
  exists e,
    Http.request decimal_int any_timestamp fresh_client "POST"
      "/api/v1/emails/send" (Received Services.throttled_with_limits)
    = (Raise e,
       set_rate_limit_info fresh_client
         (Http.snapshot_of decimal_int any_timestamp
            Services.throttled_with_limits)) /\
    _handle_error_response decimal_int Services.throttled_with_limits = Raise e.
Proof.
  apply (@error_responses_update_snapshot decimal_int any_timestamp
           fresh_client "POST" "/api/v1/emails/send"
           Services.throttled_with_limits); reflexivity.
Defined.

Lemma malformed_rate_limit_header_masks_response_witness :
  exists b,
    Http.request decimal_int any_timestamp fresh_client "GET" "/api/v1/domains"
      (Received ok_with_bad_limit)
    = (Raise (Builtin b), fresh_client) /\
    retried_types (Builtin b) = false /\
    is_retryable_error (Builtin b) = false.
Proof.
  apply (@malformed_rate_limit_header_masks_response decimal_int any_timestamp
           fresh_client "GET" "/api/v1/domains" ok_with_bad_limit); reflexivity.
Defined.

Lemma snapshot_never_disappears_witness :
  get_rate_limit_info
    (serve decimal_int any_timestamp
       (set_rate_limit_info fresh_client
          (Some {| limit := Some 100; remaining := Some 99; reset := None |}))
       [Received ok_without_limits; Failed Services.connection_refused;
        Received ok_with_bad_limit; Received unavailable])
  <> None.
Proof.
  apply (@snapshot_never_disappears decimal_int any_timestamp). discriminate.
Defined.

Lemma success_without_json_body_witness :
  send_json decimal_int any_timestamp "POST" fresh_client
    "/api/v1/domains/d1/verify" (Received no_content)
  = (Raise (Builtin JSONDecodeError), fresh_client) /\
  get decimal_int any_timestamp fresh_client
    "/api/v1/domains/d1/verify" (Received no_content)
  = (Raise (Builtin JSONDecodeError), fresh_client) /\
  (content no_content = "" ->
   delete decimal_int any_timestamp fresh_client "/api/v1/domains/d1/verify"
     (Received no_content)
   = (Return (VDict []), fresh_client)).
Proof.
  apply (@success_without_json_body decimal_int any_timestamp fresh_client
           fresh_client "POST" "/api/v1/domains/d1/verify"
           (Received no_content) no_content); reflexivity.
Defined.

Lemma unlisted_client_error_is_http_status_error_witness :
  _handle_error_response decimal_int Services.payment_required
  = Raise (HTTPStatusError Services.payment_required) /\
  retried_types (HTTPStatusError Services.payment_required) = false.
Proof.
  apply (@unlisted_client_error_is_http_status_error decimal_int
           Services.payment_required); cbn; (lia || discriminate).
Defined.

End TransportProperties.

(* ------------------------------------------------------------------ *)
(** ** Properties of the resource methods *)

Module ResourceProperties.
Import Py Floats Httpx Exceptions Http Verbs Tenacity Retry Scenarios Resources.
Import TenacityFacts RetryFacts TransportFacts TransportProperties.
Import InvokerProperties.

Section Posting.
Context {float : Type} `{FloatOps float}.
Variable py_int : string -> option Z.
Variable fromtimestamp : Z -> builtin + datetime.
Variable Service : Type.
Variable respond : Service -> outgoing -> exchange * Service.
Variable target : string.
Variable json : option value.

Local Notation sent := {| method := "POST"; path := target; body := json |}.
Local Notation op := (http_post py_int fromtimestamp respond target json).
Local Notation World := (World Service).

Lemma post_client (self : HttpClient) (answer : exchange) :
  snd (post py_int fromtimestamp self target answer)
  = snd (request py_int fromtimestamp self "GET" "/" answer).
Proof.
  unfold post, send_json.
  change (request py_int fromtimestamp self "POST" target answer)
    with (request py_int fromtimestamp self "GET" "/" answer).
  destruct (request py_int fromtimestamp self "GET" "/" answer) as [[r|e] s];
    reflexivity.
Qed.

Lemma op_step (w : World) :
  snd (op w)
  = (snd (post py_int fromtimestamp (fst w) target (fst (respond (snd w) sent))),
     snd (respond (snd w) sent)) /\
  fst (op w)
  = fst (post py_int fromtimestamp (fst w) target (fst (respond (snd w) sent))).
Proof.
  unfold http_post. destruct (respond (snd w) sent) as [a s'].
  cbn [fst snd].
  destruct (post py_int fromtimestamp (fst w) target a) as [o self']. now split.
Qed.

(** After [n] calls the client is what serving the [n] answers of the
    service leaves. *)
Lemma op_client (n : nat) :
  forall w : World,
    fst (state_after op n w)
    = serve py_int fromtimestamp (fst w) (exchanges respond sent n (snd w)).
Proof.
  induction n as [|n IH]; intros w; [reflexivity|].
  rewrite <- state_after_shift, IH.
  destruct (op_step w) as [Hs _]. rewrite Hs. cbn [fst snd exchanges].
  destruct (respond (snd w) sent) as [a s']. cbn [fst snd serve].
  now rewrite post_client.
Qed.

(** The client a retried POST leaves behind is the initial client after
    the answers the service gave to the calls made, one per call. *)
Lemma posting_run_client (c : RetryConfig float) (w : World)
    (r : run World value float) :
  with_retry (AsyncDef op) c w = Some r ->
  fst (final r)
  = serve py_int fromtimestamp (fst w)
      (exchanges respond sent (Z.to_nat (attempts r)) (snd w)).
Proof.
  intros Hr. destruct (with_retry_trace _ _ _ Hr) as [[Hlo _] _].
  unfold with_retry, create_retry_decorator in Hr.
  destruct (iterate_last _ _ _ _ _ _ _ Hr) as [Hout _].
  rewrite <- op_client.
  replace (Z.to_nat (attempts r)) with (S (Z.to_nat (attempts r - 1))) by lia.
  change (state_after op (S (Z.to_nat (attempts r - 1))) w)
    with (snd (op (state_after op (Z.to_nat (attempts r - 1)) w))).
  now rewrite <- Hout.
Qed.

Lemma posting_run_snapshot (c : RetryConfig float) (w : World)
    (r : run World value float) :
  with_retry (AsyncDef op) c w = Some r ->
  _rate_limit_info (fst (final r))
  = match find (carries_snapshot py_int fromtimestamp)
                (rev (received
                        (exchanges respond sent (Z.to_nat (attempts r)) (snd w))))
    with
    | Some x => snapshot_of py_int fromtimestamp x
    | None => _rate_limit_info (fst w)
    end.
Proof.
  intros Hr. rewrite (posting_run_client _ _ Hr).
  rewrite serve_is_process. apply process_snapshot.
Qed.

(** A service that cannot be reached makes every call raise a
    [NetworkError]. *)
Lemma op_unreachable (w : World) :
  (forall s o, exists e s', respond s o = (Failed e, s')) ->
  exists e w',
    op w = (Raise e, w') /\ retried_types e = true /\
    exists message cause, e = NetworkError message cause.
Proof.
  intros Hdown. unfold http_post.
  destruct (Hdown (snd w) sent) as (e & s' & ->). cbn.
  eexists _, _. split; [reflexivity|]. split; [reflexivity|]. eauto.
Qed.

(** When the service cannot be reached for the first sends and then
    answers with a success whose body parses, the retried POST returns the
    parsed body, provided the policy allows that many attempts. *)
Lemma posting_recovers (c : RetryConfig float) (resp : Response) (v : value)
    (errs : list RequestError) :
  is_success resp = true -> Httpx.json resp = Some v ->
  (carries_snapshot py_int fromtimestamp resp = true \/
   has_rate_limit_value resp = false) ->
  forall fuel n (w : World),
    (length errs < fuel)%nat ->
    (errs <> [] -> n + Z.of_nat (length errs) <= max_attempts c) ->
    exchanges respond sent (S (length errs)) (snd w)
    = (map Failed errs ++ [Received resp])%list ->
    exists r,
      iterate (stop_after_attempt (max_attempts c)) (backoff c)
              (retry_if_exception_type retried_types) true op fuel n w
      = Some r /\
      outcome r = Return v /\
      attempts r = n + Z.of_nat (length errs) /\
      trace r = schedule (backoff c) n (length errs) /\
      fst (final r)
      = snd (request py_int fromtimestamp (fst w) "GET" "/" (Received resp)).
Proof.
  intros Hs Hj Hh. induction errs as [|e errs IH]; intros fuel n w Hfuel Hmax Hx.
  - destruct fuel as [|fuel]; [cbn in Hfuel; lia|].
    cbn [exchanges length map app] in Hx.
    destruct (respond (snd w) sent) as [a s'] eqn:Hr.
    injection Hx as ->.
    assert (Hop : op w
                  = (Return v,
                     (snd (request py_int fromtimestamp (fst w) "GET" "/"
                             (Received resp)), s'))).
    { unfold http_post. rewrite Hr. unfold post, send_json.
      change (request py_int fromtimestamp (fst w) "POST" target (Received resp))
        with (request py_int fromtimestamp (fst w) "GET" "/" (Received resp)).
      cbn [request]. rewrite Hs. cbn [negb].
      destruct Hh as [Hc|Hn].
      - rewrite (update_carries _ _ _ _ Hc). cbn [snd].
        unfold response_json. now rewrite Hj.
      - rewrite (update_without_value _ _ _ _ Hn). cbn [snd].
        unfold response_json. now rewrite Hj. }
    cbn [iterate]. rewrite Hop. eexists. split; [reflexivity|].
    cbn. rewrite Z.add_0_r. repeat split.
  - destruct fuel as [|fuel]; [cbn in Hfuel; lia|].
    cbn [exchanges length map app] in Hx.
    destruct (respond (snd w) sent) as [a s'] eqn:Hr.
    injection Hx as -> Hx.
    assert (Hop : exists ne, op w = (Raise ne, (fst w, s')) /\
                             retried_types ne = true).
    { unfold http_post. rewrite Hr. cbn. eexists. split; reflexivity. }
    destruct Hop as (ne & Hop & Hne).
    cbn [iterate]. rewrite Hop. unfold retry_if_exception_type at 1.
    rewrite Hne. cbn [negb].
    assert (Hns : stop_after_attempt (max_attempts c) n = false).
    { apply stop_after_attempt_false.
      specialize (Hmax ltac:(discriminate)). cbn [length] in Hmax. lia. }
    rewrite Hns.
    destruct (IH fuel (n + 1) (fst w, s')) as (r & Hr' & Ho & Ha & Ht & Hf).
    + cbn [length] in Hfuel. lia.
    + intros _. specialize (Hmax ltac:(discriminate)). cbn [length] in Hmax. lia.
    + exact Hx.
    + rewrite Hr'. eexists. split; [reflexivity|].
      cbn [after outcome attempts trace final app length schedule].
      split; [exact Ho|]. split; [cbn [length]; lia|].
      split; [now rewrite Ht|exact Hf].
Qed.

End Posting.

(** Under the keyword defaults of [with_retry], where the arithmetic is
    exact, a run makes at most three calls and sleeps 1 second before the
    second and 2 before the third. *)
Lemma default_policy_run (W T : Type) (func : callable W T) (w : W) :
  exists r,
    with_retry func (with_retry_defaults : RetryConfig Q) w = Some r /\
    1 <= attempts r <= 3 /\
    forall k, 2 <= k <= attempts r ->
              delay_before (trace r) k = Some (if k =? 2 then 1 else 2)%Q.
Proof.
  destruct (with_retry_returns func (with_retry_defaults : RetryConfig Q) w)
    as [r Hr].
  exists r. split; [exact Hr|].
  destruct (with_retry_trace _ _ _ Hr) as [Hb Htr]. cbn in Hb.
  split; [lia|]. intros k Hk. rewrite Htr.
  rewrite delay_before_schedule by lia.
  assert (Hk' : k = 2 \/ k = 3) by lia.
  destruct Hk' as [-> | ->]; reflexivity.
Qed.

Section DefaultPolicy.
Variable py_int : string -> option Z.
Variable fromtimestamp : Z -> builtin + datetime.
Variable Service : Type.
Variable respond : Service -> outgoing -> exchange * Service.

Local Notation validate := (validate py_int fromtimestamp respond).
Local Notation verify := (verify py_int fromtimestamp respond).

(** [EmailsResource.validate] and [DomainsResource.verify] call
    [with_retry] without a policy: whatever retry configuration the client
    was built with, they make at most three calls, sleeping 1 and 2 seconds
    in between; when the service cannot be reached they make exactly three
    and raise the last [NetworkError]. *)
Theorem default_policy_methods_ignore_configuration
    (cfg : RetryConfig Q) (email id : string) (w : World Service) :
  (exists r,
      validate cfg email w = Some r /\
      1 <= attempts r <= 3 /\
      (forall k, 2 <= k <= attempts r ->
                 delay_before (trace r) k = Some (if k =? 2 then 1 else 2)%Q) /\
      ((forall s o, exists e s', respond s o = (Failed e, s')) ->
       attempts r = 3 /\
       exists message cause, outcome r = Raise (NetworkError message cause))) /\
  (exists r,
      verify cfg id w = Some r /\
      1 <= attempts r <= 3 /\
      (forall k, 2 <= k <= attempts r ->
                 delay_before (trace r) k = Some (if k =? 2 then 1 else 2)%Q) /\
      ((forall s o, exists e s', respond s o = (Failed e, s')) ->
       attempts r = 3 /\
       exists message cause, outcome r = Raise (NetworkError message cause))).
Proof.
  assert (Hgen : forall target json,
             exists r,
               with_retry
                 (AsyncDef (http_post py_int fromtimestamp respond target json))
                 (with_retry_defaults : RetryConfig Q) w = Some r /\
               1 <= attempts r <= 3 /\
               (forall k, 2 <= k <= attempts r ->
                   delay_before (trace r) k
                   = Some (if k =? 2 then 1 else 2)%Q) /\
               ((forall s o, exists e s', respond s o = (Failed e, s')) ->
                attempts r = 3 /\
                exists message cause,
                  outcome r = Raise (NetworkError message cause))).
  { intros target json.
    destruct (default_policy_run
                (AsyncDef (http_post py_int fromtimestamp respond target json)) w)
      as (r & Hr & Hb & Hd).
    exists r. split; [exact Hr|]. split; [exact Hb|]. split; [exact Hd|].
    intros Hdown.
    destruct (with_retry_exhausts
                (http_post py_int fromtimestamp respond target json)
                (with_retry_defaults : RetryConfig Q) w)
      as (r' & Hr' & Ha & _ & Ho).
    { intros w0.
      destruct (op_unreachable py_int fromtimestamp respond target json w0 Hdown)
        as (e & w' & H1 & H2 & _). eauto. }
    rewrite Hr in Hr'. injection Hr' as <-. split; [exact Ha|].
    destruct (op_unreachable py_int fromtimestamp respond target json
                (state_after (http_post py_int fromtimestamp respond target json)
                             (Z.to_nat (attempts r - 1)) w) Hdown)
      as (e & w' & H1 & _ & m & cause & ->).
    rewrite H1 in Ho. injection Ho as Ho _. eauto. }
  split; apply Hgen.
Qed.

End DefaultPolicy.

Section Methods.
Context {float : Type} `{FloatOps float}.
Variable py_int : string -> option Z.
Variable fromtimestamp : Z -> builtin + datetime.
Variable Service : Type.
Variable respond : Service -> outgoing -> exchange * Service.
Variable SendEmailRequest : Type.
Variable model_dump : SendEmailRequest -> value.

Local Notation validate := (validate py_int fromtimestamp respond).
Local Notation send_batch := (send_batch py_int fromtimestamp respond model_dump).

(** [EmailsResource.send_batch] passes only [max_attempts] and
    [initial_delay] to [with_retry]: it makes at most [max_attempts] calls
    (one when that is below 1), and the sleep before attempt [k] is
    [max(0, min(initial_delay * 2.0 ** (k - 2), 10.0))], or 10.0 when the
    power overflows, whatever [max_delay] and [exponential_base] the
    client's configuration holds. *)
Theorem send_batch_ignores_configured_cap
    (cfg : RetryConfig float) (emails : list SendEmailRequest)
    (w : World Service) :
  exists r,
    send_batch cfg emails w = Some r /\
    1 <= attempts r <= Z.max 1 (max_attempts cfg) /\
    forall k, 2 <= k <= attempts r ->
              delay_before (trace r) k
              = Some (match float_pow (float_of 2) (k - 2) with
                      | None => float_of 10
                      | Some exp =>
                          py_max (float_of 0)
                                 (py_min (float_mul (initial_delay cfg) exp)
                                         (float_of 10))
                      end).
Proof.
  unfold Resources.send_batch.
  match goal with
  | |- exists r, with_retry ?f ?c w = Some r /\ _ =>
      destruct (with_retry_returns f c w) as [r Hr]; exists r;
        split; [exact Hr|];
        destruct (with_retry_trace _ _ _ Hr) as [Hb Htr]
  end.
  split; [exact Hb|]. intros k Hk. rewrite Htr.
  rewrite delay_before_schedule by lia.
  rewrite backoff_clamped. unfold specified_delay.
  cbn [exponential_base initial_delay max_delay with_retry_defaults].
  now destruct (float_pow (float_of 2) (k - 2)).
Qed.

(** Retries count for the rate-limit snapshot. After [validate] or
    [send_batch] the client is the initial client after the answers the
    service gave, one per call made; so its snapshot is the one of the last
    answer that carried rate-limit values, and the initial snapshot when no
    answer did. *)
Theorem resource_calls_record_last_snapshot
    (cfg : RetryConfig float) (email : string) (emails : list SendEmailRequest)
    (w : World Service) :
  (exists r,
      validate cfg email w = Some r /\
      let answers :=
        exchanges respond
          {| method := "POST"; path := "/api/v1/emails/validate";
             body := Some (VDict [("email", VStr email)]) |}
          (Z.to_nat (attempts r)) (snd w) in
      fst (final r) = serve py_int fromtimestamp (fst w) answers /\
      _rate_limit_info (fst (final r))
      = match find (carries_snapshot py_int fromtimestamp)
                    (rev (received answers)) with
        | Some x => snapshot_of py_int fromtimestamp x
        | None => _rate_limit_info (fst w)
        end) /\
  (exists r,
      send_batch cfg emails w = Some r /\
      let answers :=
        exchanges respond
          {| method := "POST"; path := "/api/v1/emails/batch";
             body := Some (VDict [("emails", VList (map model_dump emails))]) |}
          (Z.to_nat (attempts r)) (snd w) in
      fst (final r) = serve py_int fromtimestamp (fst w) answers /\
      _rate_limit_info (fst (final r))
      = match find (carries_snapshot py_int fromtimestamp)
                    (rev (received answers)) with
        | Some x => snapshot_of py_int fromtimestamp x
        | None => _rate_limit_info (fst w)
        end).
Proof.
  split.
  - unfold Resources.validate, _validate.
    match goal with
    | |- exists r, with_retry ?f ?c w = Some r /\ _ =>
        destruct (with_retry_returns f c w) as [r Hr]
    end.
    exists r. split; [exact Hr|]. cbn zeta. split.
    + exact (posting_run_client _ _ _ _ _ _ _ Hr).
    + exact (posting_run_snapshot _ _ _ _ _ _ _ Hr).
  - unfold Resources.send_batch, _send_batch.
    match goal with
    | |- exists r, with_retry ?f ?c w = Some r /\ _ =>
        destruct (with_retry_returns f c w) as [r Hr]
    end.
    exists r. split; [exact Hr|]. cbn zeta. split.
    + exact (posting_run_client _ _ _ _ _ _ _ Hr).
    + exact (posting_run_snapshot _ _ _ _ _ _ _ Hr).
Qed.

(** [validate] rides out a short outage: when the service cannot be
    reached for the first one or two sends (or none) and then answers with a
    success whose body parses, [validate] returns the parsed body after that
    many retries, and the client holds what that answer left. *)
Theorem validate_recovers_from_outage
    (cfg : RetryConfig float) (email : string) (w : World Service)
    (errs : list RequestError) (resp : Response) (v : value) :
  (length errs <= 2)%nat ->
  exchanges respond
    {| method := "POST"; path := "/api/v1/emails/validate";
       body := Some (VDict [("email", VStr email)]) |}
    (S (length errs)) (snd w)
  = (map Failed errs ++ [Received resp])%list ->
  is_success resp = true -> Httpx.json resp = Some v ->
  (carries_snapshot py_int fromtimestamp resp = true \/
   has_rate_limit_value resp = false) ->
  exists r,
    validate cfg email w = Some r /\
    outcome r = Return v /\
    attempts r = 1 + Z.of_nat (length errs) /\
    calls (trace r) = S (length errs) /\
    fst (final r)
    = snd (request py_int fromtimestamp (fst w) "POST"
             "/api/v1/emails/validate" (Received resp)).
Proof.
  intros Hlen Hx Hs Hj Hh.
  unfold Resources.validate, _validate, with_retry, create_retry_decorator.
  destruct (@posting_recovers float _ py_int fromtimestamp Service respond
              "/api/v1/emails/validate"
              (Some (VDict [("email", VStr email)]))
              with_retry_defaults resp v errs Hs Hj Hh
              (S (Z.to_nat (max_attempts with_retry_defaults - 1))) 1 w)
    as (r & Hr & Ho & Ha & Ht & Hf).
  - change (length errs < 3)%nat. lia.
  - intros _. change (1 + Z.of_nat (length errs) <= 3). lia.
  - exact Hx.
  - exists r. split; [exact Hr|]. split; [exact Ho|]. split; [exact Ha|].
    split; [rewrite Ht; apply calls_schedule | exact Hf].
Qed.

(** [DomainsResource.delete] on a success with an empty body (a 204, say)
    whose rate-limit headers are absent or all convert returns the empty
    dict after a single call, the client holding what that answer left. *)
Theorem domain_delete_returns_empty_dict
    (cfg : RetryConfig float) (id : string) (w : World Service)
    (resp : Response) (service' : Service) :
  respond (snd w)
    {| method := "DELETE"; path := "/api/v1/domains/" ++ id; body := None |}
  = (Received resp, service') ->
  is_success resp = true -> content resp = "" ->
  (carries_snapshot py_int fromtimestamp resp = true \/
   has_rate_limit_value resp = false) ->
  domain_delete py_int fromtimestamp respond cfg id w
  = Some (finish (Return (VDict []))
                 1
                 (snd (request py_int fromtimestamp (fst w) "DELETE"
                         ("/api/v1/domains/" ++ id) (Received resp)),
                  service')).
Proof.
  intros Hr Hs Hc Hh. unfold domain_delete.
  apply with_retry_success. cbn [body_of].
  unfold _delete, http_delete. rewrite Hr.
  unfold delete. cbn [request]. rewrite Hs. cbn [negb].
  destruct Hh as [Hh|Hh].
  - rewrite (update_carries _ _ _ _ Hh). now rewrite Hc.
  - rewrite (update_without_value _ _ _ _ Hh). now rewrite Hc.
Qed.

End Methods.

Lemma default_policy_methods_ignore_configuration_witness :
  exists r,
    Resources.validate decimal_int any_timestamp Services.unreachable
      Services.capped_at_one_second "user@example.com" Services.fresh_world
    = Some r /\
    attempts r = 3 /\
    exists message cause, outcome r = Raise (NetworkError message cause).
Proof.
  destruct (default_policy_methods_ignore_configuration decimal_int
              any_timestamp Services.unreachable
              Services.capped_at_one_second "user@example.com" "d1"
              Services.fresh_world) as [(r & Hr & _ & _ & Hdown) _].
  exists r. split; [exact Hr|]. apply Hdown.
  intros s o. eexists _, _. reflexivity.
Defined.

Lemma validate_recovers_from_outage_witness :
  exists r,
    Resources.validate decimal_int any_timestamp (Services.recovering 2)
      Services.capped_at_one_second "user@example.com" Services.fresh_world
    = Some r /\
    outcome r = Return (VDict [("valid", VBool true)]) /\
    attempts r = 3.
Proof.
  destruct (@validate_recovers_from_outage Q exact decimal_int any_timestamp nat
              (Services.recovering 2) Services.capped_at_one_second
              "user@example.com" Services.fresh_world
              [Services.connection_refused; Services.connection_refused]
              Services.validation_result (VDict [("valid", VBool true)]))
    as (r & Hr & Ho & Ha & _).
  - cbn. lia.
  - reflexivity.
  - reflexivity.
  - reflexivity.
  - left. reflexivity.
  - exists r. split; [exact Hr|]. split; [exact Ho|exact Ha].
Defined.

Lemma domain_delete_returns_empty_dict_witness :
  Resources.domain_delete decimal_int any_timestamp
    (Services.answering no_content) Services.capped_at_one_second "d1"
    Services.fresh_world
  = Some (finish (Return (VDict [])) 1 (fresh_client, 1%nat)).
Proof.
  apply (@domain_delete_returns_empty_dict Q exact decimal_int any_timestamp nat
           (Services.answering no_content) Services.capped_at_one_second "d1"
           Services.fresh_world no_content 1%nat).
  - reflexivity.
  - reflexivity.
  - reflexivity.
  - right. reflexivity.
Defined.

End ResourceProperties.
